(** * The canonize stage of lorch ([src/lorch/stages/canonize.py])

    A shallow embedding of [CanonizeStage] and the properties of its
    manifest locator, manifest reader, part transformer and mapping
    orchestrator.

    The stage is I/O orchestration, so the embedding is a state-and-exception
    monad over a [world]: the filesystem, the logger's records and the trace
    of the subprocess invocations.  The state survives a raised exception,
    as it does in Python: what a call wrote before it raised stays written. *)

From stdpp Require Import gmap strings list fin_maps pretty sorting.
From Stdlib Require Import ZArith Ascii String.

Local Open Scope Z_scope.
Set Warnings "-register-all".

(** ** Text

    Python [str] values are modelled by [string]; one [ascii] stands for one
    character. *)

Definition nl : ascii := "010"%char.
Definition slash : ascii := "/"%char.
Definition underscore : ascii := "_"%char.

(** [s.split(sep)] for a one-character separator. *)
Fixpoint split_on (sep : ascii) (s : string) : list string :=
  match s with
  | EmptyString => [EmptyString]
  | String c s' =>
      if Ascii.eqb c sep then EmptyString :: split_on sep s'
      else match split_on sep s' with
           | [] => [String c EmptyString]
           | h :: t => String c h :: t
           end
  end.

(** [s.replace(a, b)] for one-character [a] and [b]. *)
Fixpoint str_replace (a b : ascii) (s : string) : string :=
  match s with
  | EmptyString => EmptyString
  | String c s' => String (if Ascii.eqb c a then b else c) (str_replace a b s')
  end.

(** [s.count(c)] for a one-character [c]. *)
Fixpoint str_count (c : ascii) (s : string) : Z :=
  match s with
  | EmptyString => 0
  | String c' s' => (if Ascii.eqb c' c then 1 else 0) + str_count c s'
  end.

(** [s[:n]]. *)
Fixpoint str_take (n : nat) (s : string) : string :=
  match n, s with
  | S n', String c s' => String c (str_take n' s')
  | _, _ => EmptyString
  end.

(** [s.endswith(suf)]. *)
Definition ends_with (suf s : string) : bool :=
  let n := String.length s in
  let k := String.length suf in
  (k <=? n)%nat && String.eqb (String.substring (n - k) k s) suf.

(** ** Paths ([pathlib.PurePosixPath])

    A path is the list of its components below the root; the configured
    directories are taken as absolute.  Joining a string splits it at the
    slashes and drops the empty and the [.] components; a string that starts
    with a slash replaces the path it is joined to. *)

Abbreviation path := (list string).

Definition keep_component (c : string) : bool :=
  negb (String.eqb c "") && negb (String.eqb c ".").

Definition components (s : string) : path :=
  List.filter keep_component (split_on slash s).

Definition is_absolute (s : string) : bool :=
  match s with
  | String c _ => Ascii.eqb c slash
  | EmptyString => false
  end.

(** A path without a [..] component.  [pathlib] keeps the [..] components of
    a path as they are and leaves them to the kernel, which steps back to
    the parent directory there; a plain path names the entry that its
    components spell. *)
Definition plain (p : path) : Prop :=
  forallb (fun c => negb (String.eqb c "..")) p = true.

(** [p / s] *)
Definition path_join (p : path) (s : string) : path :=
  if is_absolute s then components s else p ++ components s.

Infix "//" := path_join (at level 40, left associativity).

(** [p.parent]; the root is its own parent. *)
Definition parent (p : path) : path := removelast p.

(** [p.name] *)
Definition path_name (p : path) : string := List.last p "".

(** [str(p)] *)
Definition str_path (p : path) : string :=
  match p with
  | [] => "/"
  | _ => String.concat "" (List.map (fun c => "/" +:+ c) p)
  end.

(** ** JSON values, with the Python operations the stage applies to them

    [json.load] yields [None], [bool], [int], [str], [list] and [dict]
    values.  Numbers are integers, as in the manifest schema; a [dict] is
    the list of its items, each key once. *)

Inductive json : Type :=
| JNull
| JBool (b : bool)
| JInt (n : Z)
| JStr (s : string)
| JArr (l : list json)
| JObj (items : list (string * json)).

Fixpoint assoc {A : Type} (k : string) (kv : list (string * A)) : option A :=
  match kv with
  | [] => None
  | (k', v) :: kv' => if String.eqb k k' then Some v else assoc k kv'
  end.

(** [bool(v)] *)
Definition truthy (v : json) : bool :=
  match v with
  | JNull => false
  | JBool b => b
  | JInt n => negb (n =? 0)
  | JStr s => negb (String.eqb s "")
  | JArr l => match l with [] => false | _ => true end
  | JObj kv => match kv with [] => false | _ => true end
  end.

(** ** Exceptions *)

Inductive errno := ENOENT | ENOTDIR | EISDIR | EEXIST.

Inductive exn : Type :=
| FileNotFoundError (msg : string)   (* raise FileNotFoundError(msg) *)
| RuntimeError (msg : string)        (* raise RuntimeError(msg) *)
| OSError (code : errno) (p : path)  (* raised by a filesystem call *)
| JSONDecodeError
| BadGzipFile
| AttributeError
| TypeError
| KeyError (k : string).

Inductive result (A : Type) : Type :=
| Return (a : A)
| Raise (e : exn).
Arguments Return {A} a.
Arguments Raise {A} e.

(** ** The world *)

Inductive node := File (content : string) | Dir.

Inductive level := DEBUG | INFO | WARNING | ERROR.

(** What [subprocess.run(..., capture_output=True, text=True)] returns. *)
Record CompletedProcess := {
  returncode : Z;
  stdout : string;
  stderr : string
}.

Record world := {
  w_fs : gmap path node;                     (* the files and directories *)
  w_log : list (level * string);             (* self.logger, oldest first *)
  w_calls : list (list string * string)      (* subprocess runs: argv, stdin *)
}.

Definition with_fs (w : world) (m : gmap path node) : world :=
  {| w_fs := m; w_log := w_log w; w_calls := w_calls w |}.

(** ** The monad: state that survives exceptions *)

Definition M (A : Type) : Type := world -> result A * world.

Definition ret {A} (a : A) : M A := fun w => (Return a, w).

Definition raise {A} (e : exn) : M A := fun w => (Raise e, w).

Definition bind {A B} (c : M A) (k : A -> M B) : M B :=
  fun w => match c w with
           | (Return a, w') => k a w'
           | (Raise e, w') => (Raise e, w')
           end.

(** [try: c  except Exception as e: h e] *)
Definition try_except {A} (c : M A) (h : exn -> M A) : M A :=
  fun w => match c w with
           | (Return a, w') => (Return a, w')
           | (Raise e, w') => h e w'
           end.

Definition lift {A} (r : result A) : M A := fun w => (r, w).

Notation "'let*' x ':=' c 'in' k" := (bind c (fun x => k))
  (at level 10, x pattern, c at level 100, k at level 200).
Notation "c ';;;' k" := (bind c (fun _ => k))
  (at level 100, k at level 200, right associativity).

(** [for x in l: acc = body x acc] *)
Fixpoint for_each {A B : Type} (body : B -> A -> M A) (l : list B) (acc : A) : M A :=
  match l with
  | [] => ret acc
  | x :: l' => let* acc' := body x acc in for_each body l' acc'
  end.

Definition log (lv : level) (msg : string) : M unit :=
  fun w => (Return tt,
            {| w_fs := w_fs w; w_log := w_log w ++ [(lv, msg)]; w_calls := w_calls w |}).

(** ** Filesystem calls

    The filesystem maps each existing path to its node.  There are no
    symbolic links, permissions or size limits.  A call looks up the
    components of its path as they are, which is what the kernel does with a
    [plain] path; a [..] component is not resolved, so what is stated of a
    path that is read in a manifest (a part, the account and the source of
    the output file) is stated of a plain path. *)

Definition fs_exists (m : gmap path node) (p : path) : bool :=
  match m !! p with Some _ => true | None => false end.

Definition fs_is_dir (m : gmap path node) (p : path) : bool :=
  match m !! p with Some Dir => true | _ => false end.

(** [p.exists()] *)
Definition path_exists (p : path) : M bool :=
  fun w => (Return (fs_exists (w_fs w) p), w).

(** [p.is_dir()] *)
Definition is_dir (p : path) : M bool :=
  fun w => (Return (fs_is_dir (w_fs w) p), w).

(** [p] is an entry of the directory [d]. *)
Definition is_child (d p : path) : Prop := p <> [] /\ parent p = d.

#[global] Instance is_child_dec d p : Decision (is_child d p).
Proof. unfold is_child. apply _. Defined.

Definition children (m : gmap path node) (d : path) : list path :=
  filter (is_child d) (map_to_list m).*1.

(** [list(d.iterdir())] *)
Definition iterdir (d : path) : M (list path) :=
  fun w => match w_fs w !! d with
           | Some Dir => (Return (children (w_fs w) d), w)
           | Some (File _) => (Raise (OSError ENOTDIR d), w)
           | None => (Raise (OSError ENOENT d), w)
           end.

(** [open(p).read()], also the bytes that [gzip.open(p)] reads. *)
Definition read_file (p : path) : M string :=
  fun w => match w_fs w !! p with
           | Some (File c) => (Return c, w)
           | Some Dir => (Raise (OSError EISDIR p), w)
           | None => (Raise (OSError ENOENT p), w)
           end.

(** [with open(p, "a") as f: f.write(s)] *)
Definition append_file (p : path) (s : string) : M unit :=
  fun w => match w_fs w !! p with
           | Some (File c) => (Return tt, with_fs w (<[p := File (c +:+ s)]> (w_fs w)))
           | Some Dir => (Raise (OSError EISDIR p), w)
           | None =>
               match w_fs w !! parent p with
               | Some Dir => (Return tt, with_fs w (<[p := File s]> (w_fs w)))
               | Some (File _) => (Raise (OSError ENOTDIR p), w)
               | None => (Raise (OSError ENOENT p), w)
               end
           end.

(** [p.unlink()] *)
Definition unlink (p : path) : M unit :=
  fun w => match w_fs w !! p with
           | Some (File _) => (Return tt, with_fs w (delete p (w_fs w)))
           | Some Dir => (Raise (OSError EISDIR p), w)
           | None => (Raise (OSError ENOENT p), w)
           end.

(** The walk of [p.mkdir(parents=True, exist_ok=True)]: from [cur] down the
    components [rest], existing directories are kept and missing ones
    created; a regular file in the way raises. *)
Fixpoint mkdirs (p cur : path) (rest : list string) (m : gmap path node)
  : result (gmap path node) :=
  let continue m' :=
    match rest with
    | [] => Return m'
    | c :: rest' => mkdirs p (cur ++ [c]) rest' m'
    end in
  match m !! cur with
  | Some (File _) => Raise (OSError (match rest with [] => EEXIST | _ => ENOTDIR end) p)
  | Some Dir => continue m
  | None => continue (<[cur := Dir]> m)
  end.

Definition mkdir_parents (p : path) : M unit :=
  fun w => match mkdirs p [] p (w_fs w) with
           | Return m => (Return tt, with_fs w m)
           | Raise e => (Raise e, w)
           end.

(** [list(d.glob("*.jsonl"))]: the entries of [d] itself whose name ends in
    [.jsonl]; nothing when [d] is not a directory. *)
Definition glob_jsonl (d : path) : M (list path) :=
  fun w => match w_fs w !! d with
           | Some Dir =>
               (Return (List.filter (fun p => ends_with ".jsonl" (path_name p))
                          (children (w_fs w) d)), w)
           | _ => (Return [], w)
           end.

(** ** Python operations on JSON values *)

(** [d.get(k, default)]; only a [dict] has [get]. *)
Definition py_get (d : json) (k : string) (dflt : json) : result json :=
  match d with
  | JObj kv => Return (default dflt (assoc k kv))
  | _ => Raise AttributeError
  end.

(** [d[k]] for a string [k]. *)
Definition py_item (d : json) (k : string) : result json :=
  match d with
  | JObj kv => match assoc k kv with
               | Some v => Return v
               | None => Raise (KeyError k)
               end
  | _ => Raise TypeError
  end.

(** [len(v)] *)
Definition py_len (v : json) : result nat :=
  match v with
  | JStr s => Return (String.length s)
  | JArr l => Return (List.length l)
  | JObj kv => Return (List.length kv)
  | _ => Raise TypeError
  end.

(** [list(v)]: the items of a list, the characters of a string, the keys of
    a dict. *)
Definition py_iter (v : json) : result (list json) :=
  match v with
  | JArr l => Return l
  | JStr s => Return (List.map (fun c => JStr (String c EmptyString)) (list_ascii_of_string s))
  | JObj kv => Return (List.map (fun kx => JStr (fst kx)) kv)
  | _ => Raise TypeError
  end.

(** [s.replace("/", "_")]; only a [str] has [replace]. *)
Definition py_replace_slash (v : json) : result string :=
  match v with
  | JStr s => Return (str_replace slash underscore s)
  | _ => Raise AttributeError
  end.

(** [p / v]: a path joins with a [str] only. *)
Definition py_truediv (p : path) (v : json) : result path :=
  match v with
  | JStr s => Return (p // s)
  | _ => Raise TypeError
  end.

(** *** [sorted(items, key=...)]

    Python compares the keys with [<]: integers (and booleans, which are
    integers) among themselves, strings among themselves; any other pair
    raises [TypeError] ([None], a [dict]; a list key is taken as unordered
    too).  The sort is stable, and it compares nothing when there are fewer
    than two items. *)

Inductive sort_key := KNum (n : Z) | KStr (s : string) | KOther.

Definition sort_key_of (v : json) : sort_key :=
  match v with
  | JInt n => KNum n
  | JBool b => KNum (if b then 1 else 0)
  | JStr s => KStr s
  | _ => KOther
  end.

Definition comparable (a b : sort_key) : bool :=
  match a, b with
  | KNum _, KNum _ => true
  | KStr _, KStr _ => true
  | _, _ => false
  end.

Definition key_leb (a b : sort_key) : bool :=
  match a, b with
  | KNum x, KNum y => x <=? y
  | KStr x, KStr y => String.leb x y
  | _, _ => false
  end.

Fixpoint insert_keyed {A : Type} (x : sort_key * A) (l : list (sort_key * A))
  : list (sort_key * A) :=
  match l with
  | [] => [x]
  | y :: l' => if key_leb (fst x) (fst y) then x :: y :: l'
               else y :: insert_keyed x l'
  end.

Definition sort_keyed {A : Type} (l : list (sort_key * A)) : list (sort_key * A) :=
  List.fold_right insert_keyed [] l.

Definition py_sorted {A : Type} (keyed : list (sort_key * A)) : result (list A) :=
  match keyed with
  | [] | [_] => Return (List.map snd keyed)
  | (k0, _) :: _ =>
      if forallb (fun kx => comparable k0 (fst kx)) keyed
      then Return (List.map snd (sort_keyed keyed))
      else Raise TypeError
  end.

(** The key function [lambda p: p.get("seq", 0)] applied to every item, in
    order, before anything is compared. *)
Fixpoint seq_keys (items : list json) : result (list (sort_key * json)) :=
  match items with
  | [] => Return []
  | p :: items' =>
      match py_get p "seq" (JInt 0) with
      | Raise e => Raise e
      | Return k =>
          match seq_keys items' with
          | Raise e => Raise e
          | Return keyed => Return ((sort_key_of k, p) :: keyed)
          end
      end
  end.

(** [sorted(parts, key=lambda p: p.get("seq", 0))] *)
Definition sorted_by_seq (parts : json) : result (list json) :=
  match py_iter parts with
  | Raise e => Raise e
  | Return items =>
      match seq_keys items with
      | Raise e => Raise e
      | Return keyed => py_sorted keyed
      end
  end.

(** ** Configuration and result of the stage *)

Record mapping := {
  source_pattern : string;
  transform : string;
  output_name : option string
}.

Record StageConfig := {
  repo_path : path;
  venv_path : path;
  input_dir : path;
  output_dir : path;
  transform_registry : path;
  mappings : list mapping
}.

Record Metadata := {
  md_transform_registry : string;
  md_mappings_applied : nat;
  md_manifests_processed : Z;
  md_errors : nat
}.

(** The keyword arguments [execute] passes to [StageResult]; [None] is an
    argument that the call leaves out. *)
Record StageResult := {
  stage_name : string;
  success : bool;
  duration_seconds : Z;
  records_processed : option Z;
  output_files : option (list path);
  error_message : option string;
  metadata : option Metadata
}.

(** ** The stage

    What the stage calls and does not own is a capability of the runtime:
    the JSON parser, the gzip text reader, the external transform engine (a
    function from the command line and the standard input to the completed
    process), and the text that Python gives to a container ([repr]) and to
    an exception of its own ([str]). *)

Class Runtime := {
  json_loads : string -> option json;
  gunzip : string -> option string;
  engine : list string -> string -> CompletedProcess;
  py_repr : json -> string;
  runtime_str : exn -> string
}.

(** [self]: the stage's name and configuration. *)
Record Stage := {
  name : string;
  config : StageConfig
}.

Section CanonizeStage.

Context {runtime : Runtime}.
Variable self : Stage.

(** [str(v)], as an f-string formats [v]. *)
Definition py_str (v : json) : string :=
  match v with
  | JStr s => s
  | JInt n => pretty n
  | JBool true => "True"
  | JBool false => "False"
  | JNull => "None"
  | _ => py_repr v
  end.

(** [str(e)] *)
Definition exn_str (e : exn) : string :=
  match e with
  | FileNotFoundError msg => msg
  | RuntimeError msg => msg
  | _ => runtime_str e
  end.

(** [with open(p, "r") as f: json.load(f)] *)
Definition json_load (p : path) : M json :=
  let* text := read_file p in
  match json_loads text with
  | Some v => ret v
  | None => raise JSONDecodeError
  end.

(** [with gzip.open(p, "rt") as gz_file: gz_file.read()] *)
Definition gzip_read (p : path) : M string :=
  let* raw := read_file p in
  match gunzip raw with
  | Some text => ret text
  | None => raise BadGzipFile
  end.

(** [subprocess.run(command, input=input, capture_output=True, text=True,
    check=False)] *)
Definition subprocess_run (command : list string) (input : string) : M CompletedProcess :=
  fun w => (Return (engine command input),
            {| w_fs := w_fs w; w_log := w_log w;
               w_calls := w_calls w ++ [(command, input)] |}).

(** *** [_transform_gzip_part] *)

Definition part_error_msg (part_path : path) (result : CompletedProcess) : string :=
  let error_msg :=
    "Canonizer failed on " +:+ path_name part_path +:+ " with exit code "
      +:+ pretty (returncode result) in
  if negb (String.eqb (stderr result) "")
  then error_msg +:+ ": " +:+ str_take 500 (stderr result)
  else error_msg.

(** The command line that [_transform_gzip_part] builds. *)
Definition can_command (transform_meta : path) : list string :=
  let can_bin := venv_path (config self) // "bin" // "can" in
  [str_path can_bin; "transform"; "run"; "--meta"; str_path transform_meta].

Definition _transform_gzip_part (part_path transform_meta output_file : path) : M Z :=
  let command := can_command transform_meta in
  log DEBUG ("Transforming part: " +:+ path_name part_path) ;;;
  let* input_data := gzip_read part_path in
  let* result := subprocess_run command input_data in
  if negb (returncode result =? 0) then
    raise (RuntimeError (part_error_msg part_path result))
  else
    append_file output_file (stdout result) ;;;
    let records := str_count nl (stdout result) in
    ret records.

(** *** [_find_manifests] *)

(** The body of the loop over the account directories. *)
Definition find_manifests_body (account_dir : path) (manifests : list path)
  : M (list path) :=
  let* d := is_dir account_dir in
  if negb d then ret manifests else
  let latest_marker := account_dir // "LATEST.json" in
  let* ex := path_exists latest_marker in
  if negb ex then
    log DEBUG ("No LATEST.json found in " +:+ str_path account_dir +:+ ", skipping") ;;;
    ret manifests
  else
  try_except
    (let* latest_data := json_load latest_marker in
     let* dt := lift (py_get latest_data "dt" JNull) in
     let* run_id := lift (py_get latest_data "run_id" JNull) in
     if negb (truthy dt) || negb (truthy run_id) then
       log WARNING ("Invalid LATEST.json in " +:+ str_path account_dir) ;;;
       ret manifests
     else
     let manifest_path :=
       account_dir // ("dt=" +:+ py_str dt) // ("run_id=" +:+ py_str run_id)
         // "manifest.json" in
     let* ex := path_exists manifest_path in
     if negb ex then
       log WARNING ("LATEST points to non-existent run: " +:+ str_path manifest_path) ;;;
       ret manifests
     else
     log DEBUG ("Found LATEST manifest for " +:+ path_name account_dir +:+ ": "
                  +:+ py_str dt +:+ "/" +:+ py_str run_id) ;;;
     ret (manifests ++ [manifest_path]))
    (fun e =>
       log WARNING ("Could not read LATEST.json in " +:+ str_path account_dir
                      +:+ ": " +:+ exn_str e) ;;;
       ret manifests).

Definition _find_manifests (vault_root : path) (source_path : string) : M (list path) :=
  let source_dir := vault_root // source_path in
  let* ex := path_exists source_dir in
  if negb ex then ret [] else
  let* account_dirs := iterdir source_dir in
  for_each find_manifests_body account_dirs [].

(** *** [_transform_from_manifest] *)

(** The body of the loop over the sorted parts. *)
Definition transform_part_body (run_dir transform_meta output_file : path)
  (part : json) (total_records : Z) : M Z :=
  let* rel := lift (py_item part "path") in
  let* part_path := lift (py_truediv run_dir rel) in
  let* ex := path_exists part_path in
  if negb ex then
    log WARNING ("Part file not found: " +:+ str_path part_path) ;;;
    ret total_records
  else
  let* records := _transform_gzip_part part_path transform_meta output_file in
  ret (total_records + records).

Definition _transform_from_manifest (manifest_path : path) (transform_name : string)
  (transform_registry output_dir : path) (output_name : string) : M Z :=
  let* manifest := json_load manifest_path in
  let run_dir := parent manifest_path in
  let* parts := lift (py_get manifest "parts" (JArr [])) in
  if negb (truthy parts) then
    log WARNING ("No parts found in manifest: " +:+ str_path manifest_path) ;;;
    ret 0
  else
  let* parts_count := lift (py_len parts) in
  let* totals := lift (py_get manifest "totals" (JObj [])) in
  let* total := lift (py_get totals "records" (JInt 0)) in
  log INFO ("Processing " +:+ pretty parts_count +:+ " part(s) from manifest") ;;;
  let transform_meta := transform_registry // (transform_name +:+ ".meta.yaml") in
  let* ex := path_exists transform_meta in
  if negb ex then
    raise (FileNotFoundError ("Transform metadata not found: " +:+ str_path transform_meta))
  else
  let* account := lift (py_get manifest "account" (JStr "unknown")) in
  let* source_field := lift (py_get manifest "source" (JStr "unknown")) in
  let* source := lift (py_replace_slash source_field) in
  let account_output_dir := output_dir // source in
  mkdir_parents account_output_dir ;;;
  let output_file := account_output_dir // (py_str account +:+ ".jsonl") in
  let* ex := path_exists output_file in
  (if ex then
     log DEBUG ("Clearing existing canonical output: " +:+ str_path output_file) ;;;
     unlink output_file
   else ret tt) ;;;
  let* sorted_parts := lift (sorted_by_seq parts) in
  for_each (transform_part_body run_dir transform_meta output_file) sorted_parts 0.

(** *** [execute] *)

(** The body of the loop over the manifests of one mapping; the accumulator
    is [(total_records, errors)]. *)
Definition execute_manifest_body (transform_name output_name : string)
  (manifest_path : path) (acc : Z * list string) : M (Z * list string) :=
  let '(total_records, errors) := acc in
  try_except
    (let* records_processed :=
       _transform_from_manifest manifest_path transform_name
         (transform_registry (config self)) (output_dir (config self)) output_name in
     log INFO ("Transformed " +:+ pretty records_processed +:+ " records from "
                 +:+ str_path (parent manifest_path)) ;;;
     ret (total_records + records_processed, errors))
    (fun e =>
       let error_msg :=
         "Failed to transform manifest " +:+ str_path manifest_path +:+ ": "
           +:+ exn_str e in
       log ERROR error_msg ;;;
       ret (total_records, errors ++ [error_msg])).

(** The body of the loop over the mappings. *)
Definition execute_mapping_body (m : mapping) (acc : Z * list string)
  : M (Z * list string) :=
  let source_path := source_pattern m in
  let transform_name := transform m in
  let output_name := default "canonical" (output_name m) in
  let* manifests := _find_manifests (input_dir (config self)) source_path in
  match manifests with
  | [] =>
      log WARNING ("No manifests found for source: " +:+ source_path) ;;;
      ret acc
  | _ =>
      log INFO ("Found " +:+ pretty (List.length manifests) +:+ " manifest(s) for "
                  +:+ source_path) ;;;
      for_each (execute_manifest_body transform_name output_name) manifests acc
  end.

(** The result policy that closes [execute]. *)
Definition stage_result (total_records : Z) (errors : list string)
  (collected : list path) : StageResult :=
  match errors, collected with
  | first_error :: _, [] =>
      {| stage_name := name self;
         success := false;
         duration_seconds := 0;
         records_processed := None;
         output_files := None;
         error_message :=
           Some (pretty (List.length errors) +:+ " transform(s) failed: " +:+ first_error);
         metadata := None |}
  | _, _ =>
      {| stage_name := name self;
         success := true;
         duration_seconds := 0;
         records_processed := Some total_records;
         output_files := Some collected;
         error_message := None;
         metadata :=
           Some {| md_transform_registry := str_path (transform_registry (config self));
                   md_mappings_applied := List.length (mappings (config self));
                   md_manifests_processed := total_records;
                   md_errors := List.length errors |} |}
  end.

Definition execute : M StageResult :=
  log INFO ("Starting canonization with " +:+ pretty (List.length (mappings (config self)))
              +:+ " mappings from vault") ;;;
  let* (total_records, errors) := for_each execute_mapping_body (mappings (config self)) (0, []) in
  let* collected := glob_jsonl (output_dir (config self)) in
  ret (stage_result total_records errors collected).

End CanonizeStage.

(** ** The other methods of the stage *)

(** [validate] also raises a [ValueError]; what it raises is an exception of
    the other methods or that one. *)
Inductive validate_exn : Type :=
| Raised (e : exn)
| ValueError (msg : string).

Section OtherMethods.

Context {runtime : Runtime}.
Variable self : Stage.

(** [self._validate_output_dir()], a method of the base class. *)
Variable _validate_output_dir : M unit.

(** [validate]; [None] when it returns. *)
Definition validate (w : world) : option validate_exn * world :=
  (* Check canonizer repo exists *)
  if negb (fs_exists (w_fs w) (repo_path (config self))) then
    (Some (Raised (FileNotFoundError
                     ("Canonizer repo not found: " +:+ str_path (repo_path (config self))))), w)
  (* Check venv exists *)
  else if negb (fs_exists (w_fs w) (venv_path (config self))) then
    (Some (Raised (FileNotFoundError
                     ("Canonizer venv not found: " +:+ str_path (venv_path (config self))))), w)
  else
  (* Check canonizer executable *)
  let can_bin := venv_path (config self) // "bin" // "can" in
  if negb (fs_exists (w_fs w) can_bin) then
    (Some (Raised (FileNotFoundError
                     ("Canonizer executable not found: " +:+ str_path can_bin))), w)
  else
  (* Check transform registry exists *)
  let transform_registry := transform_registry (config self) in
  if negb (fs_exists (w_fs w) transform_registry) then
    (Some (Raised (FileNotFoundError
                     ("Transform registry not found: " +:+ str_path transform_registry))), w)
  (* Validate vault directory exists *)
  else if negb (fs_exists (w_fs w) (input_dir (config self))) then
    (Some (Raised (FileNotFoundError
                     ("Vault directory does not exist: "
                        +:+ str_path (input_dir (config self))))), w)
  else
  (* Validate output directory *)
  match _validate_output_dir w with
  | (Raise e, w') => (Some (Raised e), w')
  | (Return _, w') =>
      (* Validate mappings are configured *)
      match mappings (config self) with
      | [] => (Some (ValueError "No transform mappings configured"), w')
      | _ => (None, w')
      end
  end.

(** What [_transform_file] takes from outside: the date of the day as
    [strftime("%Y%m%d")] prints it, the engine run on a command line that
    names its input file (it reads the files itself and is given no standard
    input), and [validate_file_is_jsonl] of [lorch.utils]. *)
Variable date_str : string.
Variable engine_on_files : gmap path node -> list string -> CompletedProcess.
Variable validate_file_is_jsonl : gmap path node -> path -> bool.

(** [subprocess.run(command, capture_output=True, text=True, check=False)];
    the trace records the empty standard input. *)
Definition subprocess_run_files (command : list string) : M CompletedProcess :=
  fun w => (Return (engine_on_files (w_fs w) command),
            {| w_fs := w_fs w; w_log := w_log w;
               w_calls := w_calls w ++ [(command, "")] |}).

Definition file_error_msg (result : CompletedProcess) : string :=
  let error_msg := "Canonizer failed with exit code " +:+ pretty (returncode result) in
  if negb (String.eqb (stderr result) "")
  then error_msg +:+ ": " +:+ str_take 500 (stderr result)
  else error_msg.

(** The command line that [_transform_file] builds. *)
Definition file_command (transform_meta input_file : path) : list string :=
  let can_bin := venv_path (config self) // "bin" // "can" in
  [str_path can_bin; "transform"; "run"; "--meta"; str_path transform_meta;
   "--input"; str_path input_file].

Definition _transform_file (input_file : path) (transform_name : string)
  (transform_registry output_dir : path) (output_name : string) : M Z :=
  let transform_meta := transform_registry // (transform_name +:+ ".meta.yaml") in
  let* ex := path_exists transform_meta in
  if negb ex then
    raise (FileNotFoundError ("Transform metadata not found: " +:+ str_path transform_meta))
  else
  let output_file := output_dir // (output_name +:+ "-" +:+ date_str +:+ ".jsonl") in
  let command := file_command transform_meta input_file in
  log DEBUG ("Executing: " +:+ String.concat " " command) ;;;
  let* result := subprocess_run_files command in
  if negb (returncode result =? 0) then
    raise (RuntimeError (file_error_msg result))
  else
    append_file output_file (stdout result) ;;;
    let records := str_count nl (stdout result) in
    let* valid := (fun w => (Return (validate_file_is_jsonl (w_fs w) output_file), w)) in
    (if negb valid then
       log WARNING ("Output file " +:+ str_path output_file +:+ " contains invalid JSONL")
     else ret tt) ;;;
    ret records.

(** [cleanup]: nothing to clean. *)
Definition cleanup : M unit := ret tt.

End OtherMethods.

(** * The vocabulary of the properties

    What the statements below need beside the embedding: the content of a
    file, the data model of a manifest, the contract of the locator for one
    account, and what a computation reads and writes. *)

(** ** Files *)

(** The content of the regular file at [p]; empty when there is none. *)
Definition content_of (m : gmap path node) (p : path) : string :=
  match m !! p with
  | Some (File c) => c
  | _ => ""
  end.

(** [p] can be opened for appending: a regular file, or nothing yet in an
    existing directory. *)
Definition appendable (m : gmap path node) (p : path) : Prop :=
  (exists c, m !! p = Some (File c)) \/ (m !! p = None /\ m !! parent p = Some Dir).

Definition str_concat (chunks : list string) : string :=
  List.fold_right String.append "" chunks.

(** The file [output_file] after the chunks have been appended to it, one
    after the other; without a chunk it is not even opened. *)
Definition append_all (m : gmap path node) (output_file : path) (chunks : list string)
  : gmap path node :=
  match chunks with
  | [] => m
  | _ => <[output_file := File (content_of m output_file +:+ str_concat chunks)]> m
  end.

(** The second world has the files and the subprocess runs of the first. *)
Definition same_files (w w' : world) : Prop :=
  w_fs w' = w_fs w /\ w_calls w' = w_calls w.

(** [tame out c]: the result of [c] and the filesystem it leaves depend on
    the filesystem it starts from only (not on the log nor on the earlier
    subprocess runs), and [c] writes no path but [out], where it leaves no
    directory. *)
Definition tame (out : path) {A : Type} (c : M A) : Prop :=
  (forall w1 w2, w_fs w1 = w_fs w2 ->
                 (c w1).1 = (c w2).1 /\ w_fs (c w1).2 = w_fs (c w2).2)
  /\ (forall w, (forall q, q <> out -> w_fs (c w).2 !! q = w_fs w !! q)
                /\ (w_fs w !! out <> Some Dir -> w_fs (c w).2 !! out <> Some Dir)).

(** ** The data model of a manifest

    A part is [{seq: integer, path: relative path}]; a manifest carries its
    account, its source and its parts.  [conforms doc mf] says that the JSON
    document [doc] is the manifest [mf], whatever the order of its keys and
    whatever else it holds. *)

Record Part := { p_seq : Z; p_path : string }.

Record Manifest := { m_account : string; m_source : string; m_parts : list Part }.

Definition is_part (v : json) (p : Part) : Prop :=
  exists o, v = JObj o
            /\ assoc "seq" o = Some (JInt (p_seq p))
            /\ assoc "path" o = Some (JStr (p_path p)).

Definition conforms (doc : json) (mf : Manifest) : Prop :=
  exists o items,
    doc = JObj o
    /\ assoc "account" o = Some (JStr (m_account mf))
    /\ assoc "source" o = Some (JStr (m_source mf))
    /\ (assoc "totals" o = None \/ exists t, assoc "totals" o = Some (JObj t))
    /\ assoc "parts" o = Some (JArr items)
    /\ Forall2 is_part items (m_parts mf).

(** Sort keys that are integers, and their order. *)
Definition numeric {A} (x : sort_key * A) : Prop := exists n, x.1 = KNum n.

Definition key_le {A} (x y : sort_key * A) : Prop := key_leb x.1 y.1 = true.

(** The parts in the order of the rebuild: by ascending [seq], parts of equal
    [seq] in the order of the manifest. *)
Definition sort_parts (ps : list Part) : list Part :=
  (sort_keyed ((fun p => (KNum (p_seq p), p)) <$> ps)).*2.

Definition seq_le (p q : Part) : Prop := p_seq p <= p_seq q.

(** The paths that [_transform_from_manifest] derives from its arguments and
    from the manifest. *)
Definition meta_path (registry : path) (transform_name : string) : path :=
  registry // (transform_name +:+ ".meta.yaml").

Definition account_output_dir (out_dir : path) (mf : Manifest) : path :=
  out_dir // str_replace slash underscore (m_source mf).

Definition output_file_of (out_dir : path) (mf : Manifest) : path :=
  account_output_dir out_dir mf // (m_account mf +:+ ".jsonl").

(** ** The locator and the engine on a given filesystem *)

Section Vocabulary.

Context {runtime : Runtime}.
Variable self : Stage.
Variables run_dir transform_meta output_file : path.

(** The locator's contract for one account, in the words of its
    description: the entry is a directory, its [LATEST.json] is a regular
    file that parses to an object with non-empty [dt] and [run_id], and the
    manifest they point to exists. *)
Definition latest_manifest (m : gmap path node) (account_dir : path) : option path :=
  match m !! account_dir with
  | Some Dir =>
      match m !! (account_dir // "LATEST.json") with
      | Some (File text) =>
          match json_loads text with
          | Some (JObj marker) =>
              let dt := default JNull (assoc "dt" marker) in
              let run_id := default JNull (assoc "run_id" marker) in
              if truthy dt && truthy run_id then
                let manifest_path :=
                  account_dir // ("dt=" +:+ py_str dt) // ("run_id=" +:+ py_str run_id)
                    // "manifest.json" in
                if fs_exists m manifest_path then Some manifest_path else None
              else None
          | _ => None
          end
      | _ => None
      end
  | _ => None
  end.

(** What the engine is given and what it answers for the part file [p];
    nothing when [p] is not a regular file that decompresses. *)
Definition engine_run (m : gmap path node) (p : path) : option (string * CompletedProcess) :=
  match m !! p with
  | Some (File raw) =>
      match gunzip raw with
      | Some input_data =>
          Some (input_data, engine (can_command self transform_meta) input_data)
      | None => None
      end
  | _ => None
  end.

(** The part is not the output file, and its file is either missing (there
    is no entry at its path: for a [plain] path, no file on disk) or
    transformed by the engine with exit code 0. *)
Definition part_ready (m : gmap path node) (p : Part) : Prop :=
  run_dir // p_path p <> output_file
  /\ (m !! (run_dir // p_path p) = None
      \/ exists x, engine_run m (run_dir // p_path p) = Some x /\ returncode x.2 = 0).

(** The engine runs for the parts that are on disk, in the order of [l]. *)
Definition engine_runs (m : gmap path node) (l : list Part)
  : list (string * CompletedProcess) :=
  omap (fun p => engine_run m (run_dir // p_path p)) l.

(** The record that the loop logs for a part. *)
Definition part_log (m : gmap path node) (p : Part) : level * string :=
  match m !! (run_dir // p_path p) with
  | None => (WARNING, "Part file not found: " +:+ str_path (run_dir // p_path p))
  | Some _ => (DEBUG, "Transforming part: " +:+ path_name (run_dir // p_path p))
  end.

Definition records_of (rs : list (string * CompletedProcess)) : Z :=
  List.fold_right (fun x total => str_count nl (stdout x.2) + total) 0 rs.

Definition calls_of (rs : list (string * CompletedProcess)) : list (list string * string) :=
  (fun x => (can_command self transform_meta, x.1)) <$> rs.

Definition outputs_of (rs : list (string * CompletedProcess)) : list string :=
  (fun x => stdout x.2) <$> rs.

End Vocabulary.

(** ** What a computation returns and raises *)

(** Whatever [c] returns satisfies [P]. *)
Definition returns_with {A : Type} (P : A -> Prop) (c : M A) : Prop :=
  forall w a w', c w = (Return a, w') -> P a.

(** Whatever [c] raises satisfies [Q], with the world it leaves. *)
Definition raises_with {A : Type} (Q : exn -> world -> Prop) (c : M A) : Prop :=
  forall w e w', c w = (Raise e, w') -> Q e w'.

(** [c] leaves the files and the subprocess trace as they are, whether it
    returns or raises. *)
Definition read_only {A : Type} (c : M A) : Prop :=
  forall w, same_files w (c w).2.

(** [c] never raises. *)
Definition never_raises {A : Type} (c : M A) : Prop :=
  forall w, exists a w', c w = (Return a, w').

(** A name without a slash. *)
Definition no_slash (s : string) : Prop := str_count slash s = 0.

(** The JSON value is an object whose [seq] is the integer [n], or that has
    no [seq] when [n] is 0. *)
Definition has_seq (v : json) (n : Z) : Prop :=
  exists o, v = JObj o /\ default (JInt 0) (assoc "seq" o) = JInt n.

(** The sort key of [x] is the integer that [f] reads in what it is attached
    to. *)
Definition well_tagged {A : Type} (f : A -> Z) (x : sort_key * A) : Prop :=
  x.1 = KNum (f x.2).

(** What reading the manifest raises, when it does: the file is missing or a
    directory, its text is not JSON, or the document is not an object and
    has no [get]. *)
Definition manifest_error {runtime : Runtime} (m : gmap path node) (manifest_path : path)
  : option exn :=
  match m !! manifest_path with
  | None => Some (OSError ENOENT manifest_path)
  | Some Dir => Some (OSError EISDIR manifest_path)
  | Some (File text) =>
      match json_loads text with
      | None => Some JSONDecodeError
      | Some (JObj _) => None
      | Some _ => Some AttributeError
      end
  end.

(** [c] leaves the path [q] as it is, whether it returns or raises. *)
Definition keeps (q : path) {A : Type} (c : M A) : Prop :=
  forall w, w_fs (c w).2 !! q = w_fs w !! q.

(** The account that [_transform_from_manifest] reads in a manifest, as it
    names the output file. *)
Definition account_of {runtime : Runtime} (manifest : json) : string :=
  match manifest with
  | JObj o => py_str (default (JStr "unknown") (assoc "account" o))
  | _ => "unknown"
  end.

(** The source that [_transform_from_manifest] reads in a manifest, before
    its slashes are replaced. *)
Definition source_of (manifest : json) : string :=
  match manifest with
  | JObj o =>
      match default (JStr "unknown") (assoc "source" o) with
      | JStr s => s
      | _ => "unknown"
      end
  | _ => "unknown"
  end.

(** ** A worked example

    A vault with three accounts, a registry that knows two of the three
    transforms, and an engine that copies its input to its output, or fails
    with exit code 2 on an input that starts with an exclamation mark. *)

Definition line (s : string) : string := s +:+ String nl "".

Definition part_doc (seq : Z) (rel : string) : json :=
  JObj [("seq", JInt seq); ("path", JStr rel)].

Definition manifest_doc (account source : string) (parts : list json) : json :=
  JObj [("account", JStr account); ("source", JStr source);
        ("totals", JObj [("records", JInt 0)]); ("parts", JArr parts)].

(** The text of each JSON file of the example, and the document it holds. *)
Definition demo_documents : list (string * json) :=
  [ ("latest of ben", JObj [("dt", JStr "2024-05-01"); ("run_id", JStr "r1")]);
    ("manifest of ben",
     manifest_doc "ben" "email/gmail"
       [part_doc 2 "part-002.jsonl.gz"; part_doc 0 "part-000.jsonl.gz";
        part_doc 1 "part-001.jsonl.gz"]);
    ("latest of acme", JObj [("dt", JStr "2024-05-02"); ("run_id", JStr "r7")]);
    ("manifest of acme",
     manifest_doc "acme" "crm/hub"
       [part_doc 0 "part-000.jsonl.gz"; part_doc 3 "part-003.jsonl.gz";
        part_doc 7 "part-007.jsonl.gz"]);
    ("latest of zed", JObj [("dt", JStr "2024-05-03"); ("run_id", JStr "r2")]);
    ("manifest of zed", manifest_doc "zed" "billing/stripe" [part_doc 0 "part-000.jsonl.gz"]);
    ("manifest without parts", manifest_doc "ben" "email/gmail" []) ].

Definition demo_runtime : Runtime := {|
  json_loads text := assoc text demo_documents;
  gunzip raw := Some raw;
  engine argv input :=
    match input with
    | String "!" _ => {| returncode := 2; stdout := ""; stderr := "boom" |}
    | _ => {| returncode := 0; stdout := input; stderr := "" |}
    end;
  py_repr v := "<container>";
  runtime_str e := "<exception>"
|}.

Definition ben_run : path := ["vault"; "email"; "gmail"; "ben"; "dt=2024-05-01"; "run_id=r1"].
Definition acme_run : path := ["vault"; "crm"; "hub"; "acme"; "dt=2024-05-02"; "run_id=r7"].
Definition zed_run : path := ["vault"; "billing"; "stripe"; "zed"; "dt=2024-05-03"; "run_id=r2"].

Definition demo_entries : list (path * node) :=
  [ ([], Dir); (["vault"], Dir);
    (["vault"; "email"], Dir); (["vault"; "email"; "gmail"], Dir);
    (["vault"; "email"; "gmail"; "ben"], Dir);
    (["vault"; "email"; "gmail"; "ben"; "LATEST.json"], File "latest of ben");
    (["vault"; "email"; "gmail"; "ben"; "dt=2024-05-01"], Dir);
    (ben_run, Dir);
    (ben_run ++ ["manifest.json"], File "manifest of ben");
    (ben_run ++ ["empty.json"], File "manifest without parts");
    (ben_run ++ ["part-000.jsonl.gz"], File (line "a0"));
    (ben_run ++ ["part-001.jsonl.gz"], File (line "a1" +:+ line "a1b"));
    (ben_run ++ ["part-002.jsonl.gz"], File (line "a2"));
    (ben_run ++ ["broken.jsonl.gz"], File (line "!"));
    (["vault"; "crm"], Dir); (["vault"; "crm"; "hub"], Dir);
    (["vault"; "crm"; "hub"; "acme"], Dir);
    (["vault"; "crm"; "hub"; "acme"; "LATEST.json"], File "latest of acme");
    (["vault"; "crm"; "hub"; "acme"; "dt=2024-05-02"], Dir);
    (acme_run, Dir);
    (acme_run ++ ["manifest.json"], File "manifest of acme");
    (acme_run ++ ["part-000.jsonl.gz"], File (line "x0"));
    (acme_run ++ ["part-007.jsonl.gz"], File (line "x7"));
    (["vault"; "billing"], Dir); (["vault"; "billing"; "stripe"], Dir);
    (["vault"; "billing"; "stripe"; "zed"], Dir);
    (["vault"; "billing"; "stripe"; "zed"; "LATEST.json"], File "latest of zed");
    (["vault"; "billing"; "stripe"; "zed"; "dt=2024-05-03"], Dir);
    (zed_run, Dir);
    (zed_run ++ ["manifest.json"], File "manifest of zed");
    (zed_run ++ ["part-000.jsonl.gz"], File (line "z0"));
    (["vault"; "notes.txt"], File "not a directory");
    (["registry"], Dir);
    (["registry"; "email.meta.yaml"], File "");
    (["registry"; "crm.meta.yaml"], File "");
    (["venv"], Dir); (["out"], Dir) ].

Definition demo_world : world :=
  {| w_fs := list_to_map demo_entries; w_log := []; w_calls := [] |}.

Definition email_mapping : mapping :=
  {| source_pattern := "email/gmail"; transform := "email"; output_name := None |}.
Definition crm_mapping : mapping :=
  {| source_pattern := "crm/hub"; transform := "crm"; output_name := None |}.
Definition billing_mapping : mapping :=
  {| source_pattern := "billing/stripe"; transform := "billing"; output_name := None |}.

Definition demo_stage (mappings : list mapping) : Stage :=
  {| name := "canonize";
     config := {| repo_path := ["repo"]; venv_path := ["venv"];
                  input_dir := ["vault"]; output_dir := ["out"];
                  transform_registry := ["registry"];
                  mappings := mappings |} |}.

(** Every entry of the example sits in a directory. *)
Definition fs_wf (m : gmap path node) : bool :=
  forallb (fun p => match p with
                    | [] => true
                    | _ => fs_is_dir m (parent p)
                    end) (map_to_list m).*1.

Definition ben_output : path := ["out"; "email_gmail"; "ben.jsonl"].
Definition acme_output : path := ["out"; "crm_hub"; "acme.jsonl"].

Definition email_meta : path := ["registry"; "email.meta.yaml"].

Definition ben_manifest : Manifest :=
  {| m_account := "ben"; m_source := "email/gmail";
     m_parts := [ {| p_seq := 2; p_path := "part-002.jsonl.gz" |};
                  {| p_seq := 0; p_path := "part-000.jsonl.gz" |};
                  {| p_seq := 1; p_path := "part-001.jsonl.gz" |} ] |}.

Definition acme_manifest : Manifest :=
  {| m_account := "acme"; m_source := "crm/hub";
     m_parts := [ {| p_seq := 0; p_path := "part-000.jsonl.gz" |};
                  {| p_seq := 3; p_path := "part-003.jsonl.gz" |};
                  {| p_seq := 7; p_path := "part-007.jsonl.gz" |} ] |}.

(** The example once the output directory of a source exists. *)
Definition with_output_dir (source : string) : gmap path node :=
  <[["out"; source] := Dir]> (w_fs demo_world).

(** A previous output file, in its directory. *)
Definition stale_world (content : string) : world :=
  with_fs demo_world (<[ben_output := File content]> (with_output_dir "email_gmail")).

(** ** The worked example, continued

    The canonizer installed; a file of an earlier run in the output
    directory; mappings that find no directory; manifests that fail at the
    sort, in the middle of the parts, or that find none of their parts; and
    the engine of the single-file transform. *)

Definition ready_world : world :=
  with_fs demo_world
    (<[["venv"; "bin"; "can"] := File ""]>
       (<[["venv"; "bin"] := Dir]> (<[["repo"] := Dir]> (w_fs demo_world)))).

Definition legacy_output : path := ["out"; "canonical-20240501.jsonl"].

Definition legacy_world : world :=
  with_fs demo_world (<[legacy_output := File (line "old")]> (w_fs demo_world)).

Definition notes_mapping : mapping :=
  {| source_pattern := "notes.txt"; transform := "email"; output_name := None |}.
Definition sms_mapping : mapping :=
  {| source_pattern := "sms/none"; transform := "email"; output_name := None |}.

Definition underscore_manifest : Manifest :=
  {| m_account := "ben"; m_source := "email_gmail"; m_parts := [] |}.

Definition failing_manifest : Manifest :=
  {| m_account := "ben"; m_source := "email/gmail";
     m_parts := [ {| p_seq := 2; p_path := "part-002.jsonl.gz" |};
                  {| p_seq := 1; p_path := "broken.jsonl.gz" |};
                  {| p_seq := 0; p_path := "part-000.jsonl.gz" |} ] |}.

Definition gone_manifest : Manifest :=
  {| m_account := "acme"; m_source := "crm/hub";
     m_parts := [ {| p_seq := 3; p_path := "part-003.jsonl.gz" |};
                  {| p_seq := 4; p_path := "part-004.jsonl.gz" |} ] |}.

Definition odd_documents : list (string * json) :=
  [ ("manifest with a malformed part",
     manifest_doc "ben" "email/gmail"
       [part_doc 0 "part-000.jsonl.gz"; JStr "part-001.jsonl.gz"]);
    ("manifest with a failing part",
     manifest_doc "ben" "email/gmail"
       [part_doc 2 "part-002.jsonl.gz"; part_doc 1 "broken.jsonl.gz";
        part_doc 0 "part-000.jsonl.gz"]);
    ("manifest with missing parts",
     manifest_doc "acme" "crm/hub"
       [part_doc 3 "part-003.jsonl.gz"; part_doc 4 "part-004.jsonl.gz"]) ].

Definition odd_runtime : Runtime := {|
  json_loads text := assoc text (odd_documents ++ demo_documents);
  gunzip := @gunzip demo_runtime;
  engine := @engine demo_runtime;
  py_repr := @py_repr demo_runtime;
  runtime_str := @runtime_str demo_runtime
|}.

Definition odd_entries : list (path * node) :=
  [ (ben_run ++ ["malformed.json"], File "manifest with a malformed part");
    (ben_run ++ ["failing.json"], File "manifest with a failing part");
    (acme_run ++ ["gone.json"], File "manifest with missing parts");
    (["out"; "email_gmail"], Dir);
    (ben_output, File (line "stale"));
    (["out"; "crm_hub"], Dir);
    (acme_output, File (line "stale")) ].

Definition odd_world : world :=
  {| w_fs := list_to_map (odd_entries ++ demo_entries); w_log := []; w_calls := [] |}.

Definition demo_file_engine (m : gmap path node) (argv : list string) : CompletedProcess :=
  {| returncode := 0; stdout := line "r1" +:+ line "r2"; stderr := "" |}.

Definition demo_jsonl_check (m : gmap path node) (p : path) : bool := true.

(** * Properties *)

(** ** Text *)

Example components_of_source : components "email/gmail" = ["email"; "gmail"].
Proof. reflexivity. Qed.

Example components_drop_dots : components "a//b/./c/" = ["a"; "b"; "c"].
Proof. reflexivity. Qed.

Example join_relative : ["out"] // "email_gmail" // "ben.jsonl" = ["out"; "email_gmail"; "ben.jsonl"].
Proof. reflexivity. Qed.

Example join_absolute : ["out"; "email_gmail"] // "/tmp/x.jsonl" = ["tmp"; "x.jsonl"].
Proof. reflexivity. Qed.

Example replace_slashes : str_replace slash underscore "email/gmail" = "email_gmail".
Proof. reflexivity. Qed.

Example count_newlines :
  str_count nl "" = 0
  /\ str_count nl (String nl (String nl "")) = 2
  /\ str_count nl (String "a" (String nl (String "b" ""))) = 1.
Proof. repeat split; reflexivity. Qed.

Example exit_codes_as_text : pretty 2 = "2" /\ pretty (-9) = "-9" /\ pretty 0 = "0".
Proof. repeat split; reflexivity. Qed.

Example sorted_is_stable :
  py_sorted [(KNum 2, "b"); (KNum 0, "a"); (KNum 2, "a"); (KNum 1, "c")]
  = Return ["a"; "c"; "b"; "a"].
Proof. reflexivity. Qed.

Example sorted_mixed_keys_raise :
  py_sorted [(KNum 2, "b"); (KStr "0", "a")] = Raise TypeError
  /\ py_sorted [(KOther, "b"); (KOther, "a")] = Raise TypeError
  /\ py_sorted [(KOther, "b")] = Return ["b"].
Proof. repeat split; reflexivity. Qed.

Lemma str_take_length n s : (String.length (str_take n s) <= n)%nat.
Proof.
  revert s; induction n as [|n IH]; intros [|c s]; simpl; try lia.
  specialize (IH s); lia.
Qed.

Lemma str_take_length_min n s :
  String.length (str_take n s) = Nat.min n (String.length s).
Proof.
  revert s; induction n as [|n IH]; intros [|c s]; simpl; try reflexivity.
  by rewrite IH.
Qed.

Lemma str_take_prefix n s : exists rest, s = str_take n s +:+ rest.
Proof.
  revert s; induction n as [|n IH]; intros s.
  - exists s. destruct s; reflexivity.
  - destruct s as [|c s]; [exists EmptyString; reflexivity|].
    destruct (IH s) as [rest Hrest]. exists rest.
    change (String c s = String c (str_take n s +:+ rest)). by f_equal.
Qed.

Lemma str_app_cons a (s t : string) : String a s +:+ t = String a (s +:+ t).
Proof. reflexivity. Qed.

Lemma str_app_nil (t : string) : "" +:+ t = t.
Proof. reflexivity. Qed.

Lemma str_count_app c s t : str_count c (s +:+ t) = str_count c s + str_count c t.
Proof.
  induction s as [|a s IH]; [reflexivity|].
  rewrite str_app_cons. simpl. rewrite IH. lia.
Qed.

Lemma str_count_nonneg c s : 0 <= str_count c s.
Proof. induction s as [|a s IH]; simpl; [lia|]. destruct (Ascii.eqb a c); lia. Qed.

Lemma str_app_assoc (s t u : string) : (s +:+ t) +:+ u = s +:+ (t +:+ u).
Proof. induction s as [|a s IH]; [reflexivity|]. rewrite !str_app_cons. by rewrite IH. Qed.

Lemma str_app_empty_r (s : string) : s +:+ "" = s.
Proof. induction s as [|a s IH]; [reflexivity|]. rewrite str_app_cons. by rewrite IH. Qed.

Arguments path_join : simpl never.
Arguments str_path : simpl never.
Arguments path_name : simpl never.
Arguments parent : simpl never.
Arguments sorted_by_seq : simpl never.

(** ** The part transformer *)

Ltac run_monad :=
  cbv [bind ret raise lift log try_except path_exists is_dir read_file
       json_load gzip_read subprocess_run with_fs];
  cbn [w_fs w_log w_calls].

Section PartTransformer.

Context {runtime : Runtime}.
Variable self : Stage.

Lemma transform_gzip_part_nonzero part_path transform_meta output_file w raw input_data :
  w_fs w !! part_path = Some (File raw) ->
  gunzip raw = Some input_data ->
  returncode (engine (can_command self transform_meta) input_data) <> 0 ->
  _transform_gzip_part self part_path transform_meta output_file w =
    (Raise (RuntimeError
              (part_error_msg part_path (engine (can_command self transform_meta) input_data))),
     {| w_fs := w_fs w;
        w_log := w_log w ++ [(DEBUG, "Transforming part: " +:+ path_name part_path)];
        w_calls := w_calls w ++ [(can_command self transform_meta, input_data)] |}).
Proof.
  intros Hfile Hgz Hrc.
  unfold _transform_gzip_part. run_monad.
  rewrite Hfile, Hgz.
  destruct (Z.eqb_spec (returncode (engine (can_command self transform_meta) input_data)) 0);
    [contradiction|reflexivity].
Qed.

(** C5: when the external engine exits with a non-zero code, the part
    transformer raises a [RuntimeError] whose message carries the exit code
    and, when the captured standard error is not empty, its first 500
    characters at most; the filesystem is left as it was, so nothing is
    appended to the output file. *)
Theorem C5_nonzero_exit_is_hard_failure
  part_path transform_meta output_file w raw input_data :
  w_fs w !! part_path = Some (File raw) ->
  gunzip raw = Some input_data ->
  let result := engine (can_command self transform_meta) input_data in
  returncode result <> 0 ->
  exists w' shown,
    _transform_gzip_part self part_path transform_meta output_file w =
      (Raise (RuntimeError
                ("Canonizer failed on " +:+ path_name part_path +:+ " with exit code "
                   +:+ pretty (returncode result) +:+ shown)), w')
    /\ (stderr result = "" -> shown = "")
    /\ (stderr result <> "" ->
        exists head rest,
          shown = ": " +:+ head /\ stderr result = head +:+ rest
          /\ String.length head = Nat.min 500 (String.length (stderr result)))
    /\ w_fs w' = w_fs w
    /\ w_calls w' = w_calls w ++ [(can_command self transform_meta, input_data)].
Proof.
  intros Hfile Hgz result Hrc.
  rewrite (transform_gzip_part_nonzero _ _ _ _ _ _ Hfile Hgz Hrc).
  fold result. unfold part_error_msg.
  destruct (String.eqb_spec (stderr result) "") as [Hempty|Hsome]; simpl negb; cbv iota.
  - eexists _, "".
    split; [by rewrite ?str_app_assoc, ?str_app_empty_r|].
    split; [done|]. split; [done|]. split; reflexivity.
  - destruct (str_take_prefix 500 (stderr result)) as [rest Hrest].
    eexists _, (": " +:+ str_take 500 (stderr result)).
    split; [by rewrite ?str_app_assoc|].
    split; [done|]. split; [|split; reflexivity].
    intros _. exists (str_take 500 (stderr result)), rest.
    split; [reflexivity|]. split; [exact Hrest|]. apply str_take_length_min.
Qed.

(** C6: a part transformation that returns has appended the captured
    standard output to the output file, after whatever the file held, and
    returns the number of newline characters of that output: 0 for an empty
    output, one more for each further trailing newline. *)
Theorem C6_success_appends_and_counts
  part_path transform_meta output_file w records w' :
  _transform_gzip_part self part_path transform_meta output_file w = (Return records, w') ->
  exists raw input_data,
    w_fs w !! part_path = Some (File raw) /\ gunzip raw = Some input_data /\
    let result := engine (can_command self transform_meta) input_data in
    returncode result = 0
    /\ w_fs w' =
         <[output_file := File (content_of (w_fs w) output_file +:+ stdout result)]> (w_fs w)
    /\ records = str_count nl (stdout result)
    /\ (stdout result = "" -> records = 0)
    /\ (forall out, str_count nl (out +:+ String nl "") = str_count nl out + 1).
Proof.
  unfold _transform_gzip_part. run_monad.
  destruct (w_fs w !! part_path) as [[raw|]|] eqn:Hfile; try discriminate.
  destruct (gunzip raw) as [input_data|] eqn:Hgz; try discriminate.
  destruct (Z.eqb_spec (returncode (engine (can_command self transform_meta) input_data)) 0)
    as [Hrc|Hrc]; cbn [negb]; try discriminate.
  intros Hrun. exists raw, input_data. split; [reflexivity|]. split; [exact Hgz|].
  unfold append_file, content_of in *. cbn [w_fs w_log w_calls] in *.
  assert (Hcount : forall out, str_count nl (out +:+ String nl "") = str_count nl out + 1)
    by (intros out; rewrite str_count_app; reflexivity).
  destruct (w_fs w !! output_file) as [[c|]|] eqn:Hout; try discriminate.
  - injection Hrun as <- <-. cbn. repeat split; try done.
    by intros ->.
  - destruct (w_fs w !! parent output_file) as [[c|]|] eqn:Hpar; try discriminate.
    injection Hrun as <- <-. cbn. repeat split; try done.
    by intros ->.
Qed.

End PartTransformer.

(** ** The manifest reader: the checks before the rebuild *)

Section ManifestChecks.

Context {runtime : Runtime}.
Variable self : Stage.

Lemma transform_falsy_parts
  manifest_path transform_name registry out_dir out_name w text doc :
  w_fs w !! manifest_path = Some (File text) ->
  json_loads text = Some (JObj doc) ->
  truthy (default (JArr []) (assoc "parts" doc)) = false ->
  _transform_from_manifest self manifest_path transform_name registry out_dir out_name w =
    (Return 0,
     {| w_fs := w_fs w;
        w_log := w_log w ++ [(WARNING, "No parts found in manifest: " +:+ str_path manifest_path)];
        w_calls := w_calls w |}).
Proof.
  intros Hfile Hjson Hparts.
  unfold _transform_from_manifest. run_monad.
  rewrite Hfile, Hjson. cbn [py_get]. by rewrite Hparts.
Qed.

(** C9: a manifest whose [parts] list is empty or missing makes
    [_transform_from_manifest] return 0 after one warning; the filesystem is
    the one the call started from, so no output file is written (and no
    directory created), and the engine is not run. *)
Theorem C9_no_parts_returns_zero
  manifest_path transform_name registry out_dir out_name w text doc :
  w_fs w !! manifest_path = Some (File text) ->
  json_loads text = Some (JObj doc) ->
  assoc "parts" doc = None \/ assoc "parts" doc = Some (JArr []) ->
  _transform_from_manifest self manifest_path transform_name registry out_dir out_name w =
    (Return 0,
     {| w_fs := w_fs w;
        w_log := w_log w ++ [(WARNING, "No parts found in manifest: " +:+ str_path manifest_path)];
        w_calls := w_calls w |}).
Proof.
  intros Hfile Hjson Hparts.
  apply (transform_falsy_parts _ _ _ _ _ _ _ _ Hfile Hjson).
  by destruct Hparts as [-> | ->].
Qed.

(** C10: with a non-empty [parts] list and no transform metadata file,
    [_transform_from_manifest] raises and leaves the filesystem exactly as it
    was: the per-source directory is not created and a previous output file
    is not deleted.  With a well-formed [totals] the exception is the
    [FileNotFoundError] of the metadata check. *)
Theorem C10_missing_metadata_leaves_filesystem
  manifest_path transform_name registry out_dir out_name w text doc part parts :
  w_fs w !! manifest_path = Some (File text) ->
  json_loads text = Some (JObj doc) ->
  assoc "parts" doc = Some (JArr (part :: parts)) ->
  w_fs w !! (registry // (transform_name +:+ ".meta.yaml")) = None ->
  exists e w',
    _transform_from_manifest self manifest_path transform_name registry out_dir out_name w =
      (Raise e, w')
    /\ w_fs w' = w_fs w
    /\ w_calls w' = w_calls w
    /\ (assoc "totals" doc = None \/ (exists t, assoc "totals" doc = Some (JObj t)) ->
        e = FileNotFoundError
              ("Transform metadata not found: "
                 +:+ str_path (registry // (transform_name +:+ ".meta.yaml")))).
Proof.
  intros Hfile Hjson Hparts Hmeta.
  unfold _transform_from_manifest. run_monad.
  rewrite Hfile, Hjson. cbn [py_get]. rewrite Hparts. cbn.
  destruct (assoc "totals" doc) as [totals|] eqn:Htotals; cbn.
  - destruct totals; cbn;
      try (eexists _, _; split; [reflexivity|];
           split; [reflexivity|]; split; [reflexivity|];
           intros [?|[? ?]]; discriminate).
    unfold fs_exists. rewrite Hmeta. cbn.
    eexists _, _. split; [reflexivity|]. by repeat split.
  - unfold fs_exists. rewrite Hmeta. cbn.
    eexists _, _. split; [reflexivity|]. by repeat split.
Qed.

End ManifestChecks.

(** ** The manifest locator *)

Section ManifestLocator.

Context {runtime : Runtime}.

Lemma find_manifests_body_spec account_dir manifests w :
  exists w',
    find_manifests_body account_dir manifests w =
      (Return (manifests ++ option_list (latest_manifest (w_fs w) account_dir)), w')
    /\ same_files w w'.
Proof.
  unfold find_manifests_body, latest_manifest, same_files.
  run_monad. unfold fs_is_dir, fs_exists.
  destruct (w_fs w !! account_dir) as [[c|]|]; cbn;
    try (eexists; split; [by rewrite app_nil_r|done]).
  destruct (w_fs w !! (account_dir // "LATEST.json")) as [[text|]|] eqn:Hmarker;
    cbn; rewrite ?Hmarker; cbn;
    try (eexists; split; [by rewrite app_nil_r|done]).
  destruct (json_loads text) as [latest_data|]; cbn;
    try (eexists; split; [by rewrite app_nil_r|done]).
  destruct latest_data as [|b|n|s|l|marker]; cbn;
    try (eexists; split; [by rewrite app_nil_r|done]).
  destruct (truthy (default JNull (assoc "dt" marker))); cbn;
    try (eexists; split; [by rewrite app_nil_r|done]).
  destruct (truthy (default JNull (assoc "run_id" marker))); cbn;
    try (eexists; split; [by rewrite app_nil_r|done]).
  match goal with |- context [w_fs w !! ?p] => destruct (w_fs w !! p) end; cbn;
    eexists; (split; [by rewrite ?app_nil_r|done]).
Qed.

Lemma find_manifests_loop_spec account_dirs manifests w :
  exists w',
    for_each find_manifests_body account_dirs manifests w =
      (Return (manifests ++ omap (latest_manifest (w_fs w)) account_dirs), w')
    /\ same_files w w'.
Proof.
  revert manifests w. induction account_dirs as [|a l IH]; intros manifests w.
  - exists w. cbn. by rewrite app_nil_r.
  - destruct (find_manifests_body_spec a manifests w) as (w1 & Hbody & Hfs1 & Hcalls1).
    destruct (IH (manifests ++ option_list (latest_manifest (w_fs w) a)) w1)
      as (w2 & Hloop & Hfs2 & Hcalls2).
    exists w2. split; [|split; congruence].
    cbn [for_each]. unfold bind. rewrite Hbody, Hloop, Hfs1.
    f_equal. f_equal. rewrite <- app_assoc. f_equal.
    cbn [omap list_omap]. by destruct (latest_manifest (w_fs w) a).
Qed.

End ManifestLocator.

Lemma elem_of_children (m : gmap path node) (d a : path) :
  a ∈ children m d <-> is_Some (m !! a) /\ exists c, a = d ++ [c].
Proof.
  unfold children. rewrite list_elem_of_filter, list_elem_of_fmap.
  split.
  - intros [[Hne Hpar] [[a' x] [-> Hin]]]. apply elem_of_map_to_list in Hin.
    cbn in *. split; [by eexists|].
    destruct (exists_last Hne) as (l & c & ->). exists c.
    unfold parent in Hpar. rewrite removelast_last in Hpar. by subst.
  - intros [[x Hx] [c ->]]. split.
    + split; [by destruct d|]. unfold parent. by rewrite removelast_last.
    + exists (d ++ [c], x). split; [done|]. by apply elem_of_map_to_list.
Qed.

Lemma NoDup_children (m : gmap path node) (d : path) : NoDup (children m d).
Proof. apply NoDup_filter, NoDup_fst_map_to_list. Qed.

Lemma path_join_relative (p : path) (s : string) :
  is_absolute s = false -> p // s = p ++ components s.
Proof. unfold path_join. by intros ->. Qed.

Lemma NoDup_omap_prefix (f : path -> option path) (l : list path) (d : path) :
  (forall a p, f a = Some p -> a `prefix_of` p) ->
  (forall a, a ∈ l -> exists c, a = d ++ [c]) ->
  NoDup l -> NoDup (omap f l).
Proof.
  intros Hpre Hshape Hnd. induction Hnd as [|a l Hnotin Hnd IH]; [constructor|].
  cbn [omap list_omap]. destruct (f a) as [p|] eqn:Hfa.
  - constructor.
    + rewrite list_elem_of_omap. intros (a' & Ha' & Hfa').
      destruct (Hshape a) as [c ->]; [left|].
      destruct (Hshape a') as [c' ->]; [by right|].
      destruct (Hpre _ _ Hfa) as [r Hr]. destruct (Hpre _ _ Hfa') as [r' Hr'].
      rewrite Hr in Hr'. rewrite <- !app_assoc in Hr'.
      apply app_inv_head in Hr'. injection Hr' as -> _. done.
    + apply IH. intros a' Ha'. apply Hshape. by right.
  - apply IH. intros a' Ha'. apply Hshape. by right.
Qed.

Section ManifestLocatorContract.

Context {runtime : Runtime}.

Lemma latest_manifest_prefix m account_dir p :
  latest_manifest m account_dir = Some p -> account_dir `prefix_of` p.
Proof.
  unfold latest_manifest. intros Hp.
  repeat match type of Hp with
         | match ?x with _ => _ end = _ => destruct x; try discriminate
         end.
  injection Hp as <-.
  rewrite !path_join_relative by reflexivity.
  rewrite <- !app_assoc. by eexists.
Qed.


End ManifestLocatorContract.

(** ** Sorting the parts *)

Lemma insert_keyed_perm {A} (x : sort_key * A) l : insert_keyed x l ≡ₚ x :: l.
Proof.
  induction l as [|y l IH]; cbn; [done|].
  destruct (key_leb x.1 y.1); [done|]. rewrite IH. apply perm_swap.
Qed.

Lemma sort_keyed_perm {A} (l : list (sort_key * A)) : sort_keyed l ≡ₚ l.
Proof.
  induction l as [|x l IH]; cbn; [done|].
  rewrite insert_keyed_perm. by constructor.
Qed.

Lemma key_le_total {A} (x y : sort_key * A) :
  numeric x -> numeric y -> key_leb x.1 y.1 = false -> key_le y x.
Proof.
  intros [a Ha] [b Hb]. unfold key_le. rewrite Ha, Hb. cbn. lia.
Qed.

Lemma insert_keyed_sorted {A} (x : sort_key * A) l :
  numeric x -> Forall numeric l -> Sorted key_le l -> Sorted key_le (insert_keyed x l).
Proof.
  intros Hx Hl Hs. induction Hs as [|y l Hs IH Hhd]; cbn.
  - by repeat constructor.
  - destruct (key_leb x.1 y.1) eqn:Hxy.
    + constructor; [by constructor|]. by constructor.
    + inversion Hl as [|? ? Hy Hl']; subst.
      constructor; [by apply IH|].
      destruct l as [|z l]; cbn.
      * constructor. by apply key_le_total.
      * destruct (key_leb x.1 z.1).
        -- constructor. by apply key_le_total.
        -- constructor. by inversion Hhd.
Qed.

Lemma insert_keyed_numeric {A} (x : sort_key * A) l :
  numeric x -> Forall numeric l -> Forall numeric (insert_keyed x l).
Proof.
  intros Hx Hl. rewrite insert_keyed_perm. by constructor.
Qed.

Lemma sort_keyed_numeric {A} (l : list (sort_key * A)) :
  Forall numeric l -> Forall numeric (sort_keyed l).
Proof. intros Hl. by rewrite sort_keyed_perm. Qed.

Lemma sort_keyed_sorted {A} (l : list (sort_key * A)) :
  Forall numeric l -> Sorted key_le (sort_keyed l).
Proof.
  induction 1 as [|x l Hx Hl IH]; cbn; [constructor|].
  apply insert_keyed_sorted; [done|by apply sort_keyed_numeric|done].
Qed.

(** Sorting does not look at what the keys are attached to. *)
Lemma insert_keyed_map {A B} (f : A -> B) (x : sort_key * A) l :
  prod_map id f <$> insert_keyed x l = insert_keyed (prod_map id f x) (prod_map id f <$> l).
Proof.
  induction l as [|y l IH]; cbn; [done|].
  destruct x as [k a], y as [k' b]; cbn in *.
  destruct (key_leb k k'); cbn; [done|]. by rewrite IH.
Qed.

Lemma sort_keyed_map {A B} (f : A -> B) (l : list (sort_key * A)) :
  prod_map id f <$> sort_keyed l = sort_keyed (prod_map id f <$> l).
Proof.
  unfold sort_keyed. induction l as [|x l IH]; [done|].
  rewrite fmap_cons. cbn [List.fold_right].
  by rewrite insert_keyed_map, IH.
Qed.

(** With integer keys nothing raises, whatever the number of items. *)
Lemma py_sorted_numeric {A} (keyed : list (sort_key * A)) :
  Forall numeric keyed -> py_sorted keyed = Return (sort_keyed keyed).*2.
Proof.
  intros Hnum. unfold py_sorted.
  destruct keyed as [|[k0 a0] [|x keyed]]; [done|done|].
  assert (Hall : forallb (fun kx => comparable k0 kx.1) ((k0, a0) :: x :: keyed) = true).
  { apply forallb_forall. intros y Hy%list_elem_of_In.
    inversion Hnum as [|? ? [n0 Hn0] _]; subst. cbn in Hn0. subst k0.
    rewrite Forall_forall in Hnum. destruct (Hnum y Hy) as [n ->]. done. }
  rewrite Hall. f_equal.
Qed.

(** ** The parts in the order of the rebuild *)

Lemma sort_parts_perm ps : sort_parts ps ≡ₚ ps.
Proof.
  unfold sort_parts. rewrite sort_keyed_perm, <- list_fmap_compose.
  by rewrite list_fmap_id.
Qed.

Lemma sort_parts_sorted ps : StronglySorted seq_le (sort_parts ps).
Proof.
  unfold sort_parts.
  set (keyed := (fun p => (KNum (p_seq p), p)) <$> ps).
  assert (Hnum : Forall numeric keyed).
  { apply Forall_fmap, Forall_true. intros p. by exists (p_seq p). }
  assert (Hkey : Forall (fun x => x.1 = KNum (p_seq x.2)) (sort_keyed keyed)).
  { rewrite sort_keyed_perm. apply Forall_fmap, Forall_true. done. }
  apply Sorted_StronglySorted; [intros p q r; unfold seq_le; lia|].
  pose proof (sort_keyed_sorted keyed Hnum) as Hs.
  induction Hs as [|x l Hs IH Hhd]; cbn; [constructor|].
  inversion Hkey as [|? ? Hx Hl]; subst.
  constructor; [by apply IH|].
  destruct Hhd as [|y l Hxy]; cbn; constructor.
  inversion Hl as [|? ? Hy _]; subst.
  unfold key_le in Hxy. rewrite Hx, Hy in Hxy. cbn in Hxy. unfold seq_le. lia.
Qed.

Lemma seq_keys_parts items ps :
  Forall2 is_part items ps ->
  seq_keys items =
    Return ((fun vp : json * Part => (KNum (p_seq vp.2), vp.1)) <$> zip items ps).
Proof.
  induction 1 as [|v p items ps (o & -> & Hseq & _) _ IH]; [done|].
  cbn [seq_keys py_get]. rewrite Hseq, IH. done.
Qed.

Lemma sorted_by_seq_parts items ps :
  Forall2 is_part items ps ->
  exists sorted_items,
    sorted_by_seq (JArr items) = Return sorted_items
    /\ Forall2 is_part sorted_items (sort_parts ps).
Proof.
  intros Hparts.
  set (tagged := (fun vp : json * Part => (KNum (p_seq vp.2), vp)) <$> zip items ps).
  exists ((fun x : sort_key * (json * Part) => x.2.1) <$> sort_keyed tagged).
  assert (Hitems : (fun vp : json * Part => (KNum (p_seq vp.2), vp.1)) <$> zip items ps
                   = prod_map id fst <$> tagged).
  { unfold tagged. rewrite <- list_fmap_compose. done. }
  assert (Hps : (fun p => (KNum (p_seq p), p)) <$> ps = prod_map id snd <$> tagged).
  { unfold tagged. rewrite <- list_fmap_compose.
    rewrite <- (snd_zip items ps) at 1
      by (apply Forall2_length in Hparts; lia).
    rewrite <- list_fmap_compose. done. }
  split.
  - unfold sorted_by_seq. cbn [py_iter]. rewrite (seq_keys_parts _ _ Hparts), Hitems.
    rewrite py_sorted_numeric.
    + rewrite <- sort_keyed_map, <- list_fmap_compose. done.
    + apply Forall_fmap, Forall_fmap, Forall_true. intros vp. by eexists.
  - unfold sort_parts. rewrite Hps, <- sort_keyed_map, <- list_fmap_compose.
    apply Forall2_fmap, Forall_Forall2_diag.
    rewrite sort_keyed_perm. unfold tagged. apply Forall_fmap.
    clear -Hparts. induction Hparts; cbn; constructor; done.
Qed.

(** ** The rebuild loop *)

Lemma append_file_appendable p s w :
  appendable (w_fs w) p ->
  append_file p s w =
    (Return tt, with_fs w (<[p := File (content_of (w_fs w) p +:+ s)]> (w_fs w))).
Proof.
  unfold append_file, content_of. intros [[c ->]|[-> ->]]; reflexivity.
Qed.

Lemma content_of_insert m p c : content_of (<[p := File c]> m) p = c.
Proof. unfold content_of. by rewrite lookup_insert_eq. Qed.

Lemma append_all_cons m p chunk chunks :
  append_all (<[p := File (content_of m p +:+ chunk)]> m) p chunks
  = append_all m p (chunk :: chunks).
Proof.
  unfold append_all. destruct chunks as [|c chunks].
  - cbn. by rewrite str_app_empty_r.
  - rewrite content_of_insert, insert_insert_eq, str_app_assoc. done.
Qed.

Section RebuildLoop.

Context {runtime : Runtime}.
Variable self : Stage.
Variables run_dir transform_meta output_file : path.

Lemma part_ready_agree (m m' : gmap path node) l :
  (forall q, q <> output_file -> m' !! q = m !! q) ->
  Forall (part_ready self run_dir transform_meta output_file m) l ->
  Forall (part_ready self run_dir transform_meta output_file m') l
  /\ engine_runs self run_dir transform_meta m' l
     = engine_runs self run_dir transform_meta m l
  /\ part_log run_dir m' <$> l = part_log run_dir m <$> l.
Proof.
  intros Hagree. induction 1 as [|p l [Hne Hp] _ (IH1 & IH2 & IH3)]; [done|].
  assert (Hrun : engine_run self transform_meta m' (run_dir // p_path p)
                 = engine_run self transform_meta m (run_dir // p_path p))
    by (unfold engine_run; by rewrite Hagree).
  split; [|split].
  - constructor; [|done]. split; [done|]. by rewrite Hrun, Hagree.
  - unfold engine_runs in IH2 |- *. cbn [omap list_omap]. by rewrite Hrun, IH2.
  - rewrite !fmap_cons, IH3. unfold part_log. by rewrite Hagree.
Qed.

Lemma part_ready_insert m c l :
  Forall (part_ready self run_dir transform_meta output_file m) l ->
  let m' := <[output_file := File c]> m in
  Forall (part_ready self run_dir transform_meta output_file m') l
  /\ engine_runs self run_dir transform_meta m' l
     = engine_runs self run_dir transform_meta m l
  /\ part_log run_dir m' <$> l = part_log run_dir m <$> l.
Proof.
  intros Hready m'. apply part_ready_agree; [|done].
  intros q Hq. by apply lookup_insert_ne.
Qed.

Lemma rebuild_loop items l total_records w :
  Forall2 is_part items l ->
  Forall (part_ready self run_dir transform_meta output_file (w_fs w)) l ->
  appendable (w_fs w) output_file ->
  let rs := engine_runs self run_dir transform_meta (w_fs w) l in
  for_each (transform_part_body self run_dir transform_meta output_file) items
    total_records w =
    (Return (total_records + records_of rs),
     {| w_fs := append_all (w_fs w) output_file (outputs_of rs);
        w_log := w_log w ++ (part_log run_dir (w_fs w) <$> l);
        w_calls := w_calls w ++ calls_of self transform_meta rs |}).
Proof.
  intros Hparts. revert total_records w.
  induction Hparts as [|v p items l (o & -> & _ & Hpath) _ IH];
    intros total_records w Hready Happ; cbv zeta in *.
  - cbn. unfold ret. rewrite Z.add_0_r, !app_nil_r. by destruct w.
  - inversion Hready as [|? ? [Hne Hp] Hready']; subst.
    cbn [for_each]. unfold transform_part_body at 1.
    run_monad. cbn [py_item]. rewrite Hpath. cbn [py_truediv].
    unfold fs_exists. unfold engine_runs. cbn [omap list_omap].
    fold (engine_runs self run_dir transform_meta (w_fs w) l).
    rewrite fmap_cons. unfold part_log at 1.
    destruct Hp as [Hmissing | ([input_data result] & Hrun & Hrc)].
    + unfold engine_run at 1 2 3. rewrite Hmissing. cbn [negb].
      rewrite IH by done. cbn [w_fs w_log w_calls].
      by rewrite <- app_assoc.
    + rewrite Hrun. unfold engine_run in Hrun.
      destruct (w_fs w !! (run_dir // p_path p)) as [[raw|]|] eqn:Hfile; try discriminate.
      destruct (gunzip raw) as [input'|] eqn:Hgz; try discriminate.
      injection Hrun as <- <-. cbn [negb].
      unfold _transform_gzip_part. run_monad. rewrite Hfile, Hgz.
      cbn in Hrc. rewrite Hrc. cbn [Z.eqb negb].
      rewrite append_file_appendable by done.
      cbn [with_fs w_fs w_log w_calls].
      set (result := engine (can_command self transform_meta) input').
      destruct (part_ready_insert (w_fs w)
                  (content_of (w_fs w) output_file +:+ stdout result) l Hready')
        as (Hready1 & Hruns1 & Hlog1).
      unfold with_fs. rewrite IH; cbn [w_fs w_log w_calls].
      * rewrite Hruns1, Hlog1, append_all_cons.
        cbn [records_of List.fold_right outputs_of calls_of fmap list_fmap].
        rewrite <- !app_assoc. f_equal. f_equal.
        unfold records_of. cbn. lia.
      * done.
      * left. eexists. apply lookup_insert_eq.
Qed.

End RebuildLoop.

(** ** Creating the output directory *)

Lemma mkdirs_effect (p cur : path) (rest : list string) (m m1 : gmap path node) :
  mkdirs p cur rest m = Return m1 ->
  forall q, m1 !! q = m !! q
            \/ (m !! q = None /\ m1 !! q = Some Dir /\ exists k, q = cur ++ take k rest).
Proof.
  revert cur m. induction rest as [|c rest IH]; intros cur m Hmk q; cbn in Hmk.
  - destruct (m !! cur) as [[x|]|] eqn:Hcur; try discriminate; injection Hmk as <-.
    + by left.
    + destruct (decide (q = cur)) as [->|Hne].
      * right. rewrite lookup_insert_eq. split; [done|]. split; [done|].
        exists 0%nat. by rewrite app_nil_r.
      * left. by rewrite lookup_insert_ne.
  - destruct (m !! cur) as [[x|]|] eqn:Hcur; try discriminate.
    + destruct (IH _ _ Hmk q) as [?|(? & ? & k & ->)]; [by left|right].
      split; [done|]. split; [done|]. exists (S k). cbn. by rewrite <- app_assoc.
    + destruct (decide (q = cur)) as [->|Hne].
      * right. split; [done|].
        destruct (IH _ _ Hmk cur) as [Heq|(Hnone & _)].
        -- rewrite lookup_insert_eq in Heq. split; [done|]. exists 0%nat. by rewrite app_nil_r.
        -- by rewrite lookup_insert_eq in Hnone.
      * destruct (IH _ _ Hmk q) as [Heq|(Hnone & Hdir & k & ->)].
        -- left. by rewrite lookup_insert_ne in Heq.
        -- right. rewrite lookup_insert_ne in Hnone by done.
           split; [done|]. split; [done|]. exists (S k). cbn. by rewrite <- app_assoc.
Qed.

Lemma mkdirs_keeps (p cur : path) (rest : list string) (m m1 : gmap path node) q x :
  mkdirs p cur rest m = Return m1 -> m !! q = Some x -> m1 !! q = Some x.
Proof.
  intros Hmk Hq. destruct (mkdirs_effect _ _ _ _ _ Hmk q) as [->|[Hnone _]]; congruence.
Qed.

(** Creating the directories a second time changes nothing. *)
Lemma mkdirs_idem (p cur : path) (rest : list string) (m m1 : gmap path node) :
  mkdirs p cur rest m = Return m1 -> mkdirs p cur rest m1 = Return m1.
Proof.
  revert cur m. induction rest as [|c rest IH]; intros cur m Hmk; cbn in Hmk |- *.
  - destruct (m !! cur) as [[x|]|] eqn:Hcur; try discriminate; injection Hmk as <-.
    + by rewrite Hcur.
    + by rewrite lookup_insert_eq.
  - assert (Hdir : m1 !! cur = Some Dir).
    { destruct (m !! cur) as [[x|]|] eqn:Hcur; try discriminate.
      - by apply (mkdirs_keeps _ _ _ _ _ _ _ Hmk).
      - apply (mkdirs_keeps _ _ _ _ _ _ _ Hmk). by rewrite lookup_insert_eq. }
    rewrite Hdir.
    destruct (m !! cur) as [[x|]|]; try discriminate; by apply (IH _ _ Hmk).
Qed.

(** Two filesystems that differ at [out] only, a path that the walk does not
    visit, get the same directories. *)
Lemma mkdirs_agree (p out cur : path) (rest : list string) (ma mb ma1 : gmap path node) :
  (forall q, q <> out -> ma !! q = mb !! q) ->
  (forall k, cur ++ take k rest <> out) ->
  mkdirs p cur rest ma = Return ma1 ->
  exists mb1, mkdirs p cur rest mb = Return mb1
              /\ (forall q, q <> out -> ma1 !! q = mb1 !! q)
              /\ mb1 !! out = mb !! out.
Proof.
  revert cur ma mb. induction rest as [|c rest IH]; intros cur ma mb Hagree Hvisit Hmk;
    cbn in Hmk |- *;
    (assert (Hcur : cur <> out) by (specialize (Hvisit 0%nat); by rewrite app_nil_r in Hvisit));
    rewrite <- (Hagree cur Hcur).
  - destruct (ma !! cur) as [[x|]|] eqn:Hlook; try discriminate; injection Hmk as <-.
    + by eexists.
    + eexists. split; [done|]. split; [|by rewrite lookup_insert_ne].
      intros q Hq. destruct (decide (q = cur)) as [->|Hne].
      * by rewrite !lookup_insert_eq.
      * rewrite !lookup_insert_ne by done. by apply Hagree.
  - assert (Hvisit' : forall k, (cur ++ [c]) ++ take k rest <> out).
    { intros k. specialize (Hvisit (S k)). cbn in Hvisit. by rewrite <- app_assoc. }
    destruct (ma !! cur) as [[x|]|] eqn:Hlook; try discriminate.
    + by apply (IH _ _ _ Hagree Hvisit' Hmk).
    + destruct (IH (cur ++ [c]) (<[cur := Dir]> ma) (<[cur := Dir]> mb)) as (mb1 & H1 & H2 & H3);
        [|done|done|].
      * intros q Hq. destruct (decide (q = cur)) as [->|Hne].
        -- by rewrite !lookup_insert_eq.
        -- rewrite !lookup_insert_ne by done. by apply Hagree.
      * exists mb1. split; [done|]. split; [done|]. by rewrite H3, lookup_insert_ne.
Qed.

Lemma not_prefix_visit (out target : path) :
  ~ out `prefix_of` target -> forall k, [] ++ take k target <> out.
Proof.
  intros Hpre k <-. apply Hpre. cbn. exists (drop k target). by rewrite take_drop.
Qed.

(** ** What a computation reads and writes *)

Lemma tame_read_only (out : path) {A} (c : M A) (f : gmap path node -> result A) :
  (forall w, (c w).1 = f (w_fs w) /\ w_fs (c w).2 = w_fs w) -> tame out c.
Proof.
  intros Hc. split.
  - intros w1 w2 Hfs. destruct (Hc w1) as [-> ->], (Hc w2) as [-> ->]. by rewrite Hfs.
  - intros w. destruct (Hc w) as [_ ->]. done.
Qed.

Lemma tame_ret (out : path) {A} (a : A) : tame out (ret a).
Proof. by apply (tame_read_only _ _ (fun _ => Return a)). Qed.

Lemma tame_raise (out : path) {A} e : tame out (@raise A e).
Proof. by apply (tame_read_only _ _ (fun _ => Raise e)). Qed.

Lemma tame_lift (out : path) {A} (r : result A) : tame out (lift r).
Proof. by apply (tame_read_only _ _ (fun _ => r)). Qed.

Lemma tame_log (out : path) lv msg : tame out (log lv msg).
Proof. by apply (tame_read_only _ _ (fun _ => Return tt)). Qed.

Lemma tame_path_exists (out : path) p : tame out (path_exists p).
Proof. by apply (tame_read_only _ _ (fun m => Return (fs_exists m p))). Qed.

Lemma tame_read_file (out : path) p : tame out (read_file p).
Proof.
  apply (tame_read_only _ _ (fun m => match m !! p with
                                      | Some (File c) => Return c
                                      | Some Dir => Raise (OSError EISDIR p)
                                      | None => Raise (OSError ENOENT p)
                                      end)).
  intros w. unfold read_file. by destruct (w_fs w !! p) as [[c|]|].
Qed.

Lemma tame_append_file (out : path) s : tame out (append_file out s).
Proof.
  split.
  - intros w1 w2 Hfs. unfold append_file. rewrite Hfs.
    destruct (w_fs w2 !! out) as [[c|]|]; [done|done|].
    by destruct (w_fs w2 !! parent out) as [[c|]|].
  - intros w. unfold append_file.
    destruct (w_fs w !! out) as [[c|]|] eqn:Hout; cbn.
    + split; [intros q Hq; by rewrite lookup_insert_ne|by rewrite lookup_insert_eq].
    + done.
    + destruct (w_fs w !! parent out) as [[c|]|]; cbn; [by rewrite Hout| |by rewrite Hout].
      split; [intros q Hq; by rewrite lookup_insert_ne|by rewrite lookup_insert_eq].
Qed.

Lemma tame_bind (out : path) {A B} (c : M A) (k : A -> M B) :
  tame out c -> (forall a, tame out (k a)) -> tame out (bind c k).
Proof.
  intros [Hdet Hwr] Hk. split.
  - intros w1 w2 Hfs. unfold bind.
    destruct (Hdet w1 w2 Hfs) as [Hr Hfs'].
    destruct (c w1) as [r1 w1'], (c w2) as [r2 w2']. cbn in Hr, Hfs'. subst r2.
    destruct r1 as [a|e]; [|done]. by apply Hk.
  - intros w. unfold bind. destruct (Hwr w) as [Hother Hout].
    destruct (c w) as [r w']. cbn in Hother, Hout.
    destruct r as [a|e]; [|done].
    destruct (Hk a) as [_ Hwr']. destruct (Hwr' w') as [Hother' Hout'].
    split; [intros q Hq; by rewrite Hother', Hother|auto].
Qed.

Lemma tame_for_each (out : path) {A B} (body : B -> A -> M A) l acc :
  (forall x a, tame out (body x a)) -> tame out (for_each body l acc).
Proof.
  intros Hbody. revert acc. induction l as [|x l IH]; intros acc; cbn.
  - apply tame_ret.
  - apply tame_bind; [apply Hbody|apply IH].
Qed.

Section TameLoop.

Context {runtime : Runtime}.
Variable self : Stage.

Lemma tame_transform_gzip_part part_path transform_meta output_file :
  tame output_file (_transform_gzip_part self part_path transform_meta output_file).
Proof.
  unfold _transform_gzip_part, gzip_read.
  apply tame_bind; [apply tame_log|intros _].
  apply tame_bind.
  { apply tame_bind; [apply tame_read_file|intros raw].
    destruct (gunzip raw); [apply tame_ret|apply tame_raise]. }
  intros input_data. apply tame_bind.
  { apply (tame_read_only _ _ (fun _ => Return (engine (can_command self transform_meta) input_data))).
    done. }
  intros result. destruct (negb (returncode result =? 0)); [apply tame_raise|].
  apply tame_bind; [apply tame_append_file|intros _; apply tame_ret].
Qed.

Lemma tame_transform_part_body run_dir transform_meta output_file part total_records :
  tame output_file
    (transform_part_body self run_dir transform_meta output_file part total_records).
Proof.
  unfold transform_part_body.
  apply tame_bind; [apply tame_lift|intros rel].
  apply tame_bind; [apply tame_lift|intros part_path].
  apply tame_bind; [apply tame_path_exists|intros ex].
  destruct (negb ex).
  - apply tame_bind; [apply tame_log|intros _; apply tame_ret].
  - apply tame_bind; [apply tame_transform_gzip_part|intros records; apply tame_ret].
Qed.

End TameLoop.

(** ** From the checks of [_transform_from_manifest] to the rebuild *)

Arguments mkdirs : simpl never.

Section ManifestRebuild.

Context {runtime : Runtime}.
Variable self : Stage.
Variables (manifest_path : path) (transform_name : string).
Variables (registry out_dir : path) (out_name : string).
Variables (text : string) (mf : Manifest).

Local Abbreviation transform_meta := (meta_path registry transform_name).
Local Abbreviation run_dir := (parent manifest_path).
Local Abbreviation out := (output_file_of out_dir mf).
Local Abbreviation run :=
  (_transform_from_manifest self manifest_path transform_name registry out_dir out_name).
Local Abbreviation loop := (for_each (transform_part_body self run_dir transform_meta out)).

Lemma reach_rebuild o items sorted_items w m1 :
  json_loads text = Some (JObj o) ->
  assoc "account" o = Some (JStr (m_account mf)) ->
  assoc "source" o = Some (JStr (m_source mf)) ->
  (assoc "totals" o = None \/ exists t, assoc "totals" o = Some (JObj t)) ->
  assoc "parts" o = Some (JArr items) ->
  items <> [] ->
  sorted_by_seq (JArr items) = Return sorted_items ->
  w_fs w !! manifest_path = Some (File text) ->
  is_Some (w_fs w !! transform_meta) ->
  mkdirs (account_output_dir out_dir mf) [] (account_output_dir out_dir mf) (w_fs w)
    = Return m1 ->
  m1 !! out <> Some Dir ->
  exists w2, run w = loop sorted_items 0 w2
             /\ w_fs w2 = delete out m1 /\ w_calls w2 = w_calls w.
Proof.
  intros Hjson Hacc Hsrc Htotals Hparts Hne Hsorted Hfile [x Hmeta] Hmk Hout.
  unfold output_file_of, account_output_dir, meta_path in *.
  unfold _transform_from_manifest. run_monad.
  rewrite Hfile, Hjson. cbn [py_get]. rewrite Hparts.
  destruct items as [|item items]; [done|]. cbn.
  assert (Htot : exists t, default (JObj []) (assoc "totals" o) = JObj t).
  { destruct Htotals as [->|[t ->]]; by eexists. }
  destruct Htot as [t ->]. cbn.
  unfold fs_exists. rewrite Hmeta. cbn.
  rewrite Hacc, Hsrc. cbn.
  unfold mkdir_parents. cbn. rewrite Hmk. cbn.
  rewrite Hsorted.
  match type of Hout with ?l <> _ => destruct l as [[c|]|] eqn:Hlook end; [|done|]; cbn.
  - unfold unlink. cbn. rewrite Hlook. cbn.
    eexists. split; [reflexivity|]. done.
  - eexists. split; [reflexivity|]. cbn. by rewrite delete_id.
Qed.

Lemma rebuild_spec w doc m1 :
  json_loads text = Some doc ->
  conforms doc mf ->
  m_parts mf <> [] ->
  w_fs w !! manifest_path = Some (File text) ->
  is_Some (w_fs w !! transform_meta) ->
  mkdirs (account_output_dir out_dir mf) [] (account_output_dir out_dir mf) (w_fs w)
    = Return m1 ->
  m1 !! out <> Some Dir ->
  m1 !! parent out = Some Dir ->
  Forall (part_ready self run_dir transform_meta out m1) (m_parts mf) ->
  let rs := engine_runs self run_dir transform_meta m1 (sort_parts (m_parts mf)) in
  exists w',
    run w = (Return (records_of rs), w')
    /\ w_fs w' = append_all (delete out m1) out (outputs_of rs)
    /\ w_calls w' = w_calls w ++ calls_of self transform_meta rs
    /\ exists before,
        w_log w' = before ++ (part_log run_dir m1 <$> sort_parts (m_parts mf)).
Proof.
  intros Hjson (o & items & -> & Hacc & Hsrc & Htot & Hparts & Hall) Hne
    Hfile Hmeta Hmk Hout Hpar Hready rs.
  assert (Hitems : items <> []) by (intros ->; by inversion Hall).
  destruct (sorted_by_seq_parts _ _ Hall) as (sorted_items & Hsorted & Hall').
  destruct (reach_rebuild o items sorted_items w m1) as (w2 & Hrun & Hfs2 & Hcalls2);
    try done.
  assert (Hready2 : Forall (part_ready self run_dir transform_meta out m1)
                      (sort_parts (m_parts mf)))
    by (by rewrite sort_parts_perm).
  destruct (part_ready_agree self run_dir transform_meta out m1 (w_fs w2)
              (sort_parts (m_parts mf))) as (Hready3 & Hruns & Hlog); [|done|].
  { intros q Hq. by rewrite Hfs2, lookup_delete_ne. }
  rewrite Hrun, (rebuild_loop self run_dir transform_meta out _ _ 0 w2 Hall' Hready3).
  - rewrite Hruns, Hlog, Hfs2, Hcalls2. eexists. split; [reflexivity|]. cbn. eauto.
  - right. rewrite Hfs2, lookup_delete_eq. split; [done|].
    rewrite lookup_delete_ne; [done|]. intros Heq. by rewrite <- Heq in Hpar.
Qed.

Lemma engine_runs_on_disk (m : gmap path node) l :
  Forall (part_ready self run_dir transform_meta out m) l ->
  Forall2 (fun p x => engine_run self transform_meta m (run_dir // p_path p) = Some x)
    (filter (fun p => is_Some (m !! (run_dir // p_path p))) l)
    (engine_runs self run_dir transform_meta m l).
Proof.
  induction 1 as [|p l [_ Hp] _ IH]; [constructor|].
  unfold engine_runs. cbn [omap list_omap]. rewrite filter_cons.
  destruct Hp as [Hmissing|(x & Hrun & _)].
  - assert (Hrun : engine_run self transform_meta m (run_dir // p_path p) = None)
      by (unfold engine_run; by rewrite Hmissing).
    rewrite Hrun, Hmissing.
    destruct (decide (is_Some (None : option node))) as [[? ?]|_]; [done|exact IH].
  - rewrite Hrun.
    destruct (decide (is_Some (m !! (run_dir // p_path p)))) as [_|Hnone].
    + by constructor.
    + exfalso. apply Hnone. unfold engine_run in Hrun.
      by destruct (m !! (run_dir // p_path p)).
Qed.



(** Two calls that pass the checks and start the rebuild from the same
    filesystem end alike. *)
Lemma run_same_rebuild doc wa wb ma1 mb1 :
  json_loads text = Some doc ->
  conforms doc mf ->
  m_parts mf <> [] ->
  w_fs wa !! manifest_path = Some (File text) ->
  w_fs wb !! manifest_path = Some (File text) ->
  is_Some (w_fs wa !! transform_meta) ->
  is_Some (w_fs wb !! transform_meta) ->
  mkdirs (account_output_dir out_dir mf) [] (account_output_dir out_dir mf) (w_fs wa)
    = Return ma1 ->
  mkdirs (account_output_dir out_dir mf) [] (account_output_dir out_dir mf) (w_fs wb)
    = Return mb1 ->
  ma1 !! out <> Some Dir ->
  mb1 !! out <> Some Dir ->
  delete out ma1 = delete out mb1 ->
  (run wa).1 = (run wb).1 /\ w_fs (run wa).2 = w_fs (run wb).2.
Proof.
  intros Hjson (o & items & -> & Hacc & Hsrc & Htot & Hparts & Hall) Hne
    Hfa Hfb Hma Hmb Hmka Hmkb Houta Houtb Hsame.
  assert (Hitems : items <> []) by (intros ->; by inversion Hall).
  destruct (sorted_by_seq_parts _ _ Hall) as (sorted_items & Hsorted & _).
  destruct (reach_rebuild o items sorted_items wa ma1) as (wa2 & -> & Hfsa & _); try done.
  destruct (reach_rebuild o items sorted_items wb mb1) as (wb2 & -> & Hfsb & _); try done.
  apply (tame_for_each out); [|congruence].
  intros part total. apply tame_transform_part_body.
Qed.

(** C3, amended: for a manifest with a non-empty [parts] list whose call
    passes the checks (the metadata file exists, the output directory can be
    created) and whose output path is not a directory, not one of the files
    the call reads and not on the way to the output directory, the previous
    output file is deleted before the rebuild: a call from any filesystem
    that differs at the output file only returns the same result and leaves
    the same filesystem, and so does a second call on the filesystem that
    the first one left. *)
Theorem C3_rebuild_forgets_previous_output w doc m1 :
  json_loads text = Some doc ->
  conforms doc mf ->
  m_parts mf <> [] ->
  w_fs w !! manifest_path = Some (File text) ->
  is_Some (w_fs w !! transform_meta) ->
  mkdirs (account_output_dir out_dir mf) [] (account_output_dir out_dir mf) (w_fs w)
    = Return m1 ->
  w_fs w !! out <> Some Dir ->
  manifest_path <> out ->
  transform_meta <> out ->
  ~ out `prefix_of` account_output_dir out_dir mf ->
  (forall w0,
      (forall q, q <> out -> w_fs w0 !! q = w_fs w !! q) ->
      w_fs w0 !! out <> Some Dir ->
      (run w0).1 = (run w).1 /\ w_fs (run w0).2 = w_fs (run w).2)
  /\ (run (run w).2).1 = (run w).1
  /\ w_fs (run (run w).2).2 = w_fs (run w).2.
Proof.
  intros Hjson Hconf Hne Hfile Hmeta Hmk Hout Hmp Htm Hpre.
  pose proof (not_prefix_visit _ _ Hpre) as Hvisit.
  assert (Hout1 : m1 !! out = w_fs w !! out).
  { destruct (mkdirs_effect _ _ _ _ _ Hmk out) as [?|(_ & _ & k & Hk)]; [done|].
    by destruct (Hvisit k). }
  assert (Hfrom : forall w0 base,
             (forall q, q <> out -> w_fs w0 !! q = base !! q) ->
             w_fs w0 !! out <> Some Dir ->
             base !! manifest_path = Some (File text) ->
             is_Some (base !! transform_meta) ->
             mkdirs (account_output_dir out_dir mf) [] (account_output_dir out_dir mf) base
               = Return m1 ->
             (run w0).1 = (run w).1 /\ w_fs (run w0).2 = w_fs (run w).2).
  { intros w0 base Hagree Hout0 Hbfile Hbmeta Hbmk.
    destruct (mkdirs_agree (account_output_dir out_dir mf) out []
                (account_output_dir out_dir mf) base (w_fs w0) m1)
      as (m0 & Hmk0 & Hagree0 & Hout0');
      [intros q Hq; symmetry; by apply Hagree|done|done|].
    apply (run_same_rebuild doc w0 w m0 m1); try done.
    - by rewrite Hagree.
    - by rewrite Hagree.
    - by rewrite Hout0'.
    - by rewrite Hout1.
    - apply map_eq. intros q. destruct (decide (q = out)) as [->|Hq].
      + by rewrite !lookup_delete_eq.
      + rewrite !lookup_delete_ne by done. symmetry. by apply Hagree0. }
  split.
  - intros w0 Hagree Hout0. by apply (Hfrom w0 (w_fs w)).
  - assert (Hitems : exists o items sorted_items,
               doc = JObj o /\ assoc "account" o = Some (JStr (m_account mf))
               /\ assoc "source" o = Some (JStr (m_source mf))
               /\ (assoc "totals" o = None \/ exists t, assoc "totals" o = Some (JObj t))
               /\ assoc "parts" o = Some (JArr items) /\ items <> []
               /\ sorted_by_seq (JArr items) = Return sorted_items).
    { destruct Hconf as (o & items & -> & Hacc & Hsrc & Htot & Hparts & Hall).
      destruct (sorted_by_seq_parts _ _ Hall) as (sorted_items & Hsorted & _).
      exists o, items, sorted_items. repeat split; try done.
      intros ->. by inversion Hall. }
    destruct Hitems as (o & items & sorted_items & -> & Hacc & Hsrc & Htot & Hparts & Hi & Hs).
    destruct (reach_rebuild o items sorted_items w m1) as (w2 & Hrun & Hfs2 & _); try done.
    { by rewrite Hout1. }
    destruct (tame_for_each out (transform_part_body self run_dir transform_meta out)
                sorted_items 0) as [_ Hwrites].
    { intros part total. apply tame_transform_part_body. }
    destruct (Hwrites w2) as [Hother Hnodir]. rewrite <- Hrun in Hother, Hnodir.
    apply (Hfrom (run w).2 m1).
    + intros q Hq. by rewrite Hother, Hfs2, lookup_delete_ne.
    + apply Hnodir. by rewrite Hfs2, lookup_delete_eq.
    + by apply (mkdirs_keeps _ _ _ _ _ _ _ Hmk).
    + destruct Hmeta as [x Hx]. exists x. by apply (mkdirs_keeps _ _ _ _ _ _ _ Hmk).
    + by apply (mkdirs_idem _ _ _ _ _ Hmk).
Qed.

End ManifestRebuild.

(** ** The result policy of the stage *)

Section ResultPolicy.

Variable self : Stage.

(** The policy itself, on the errors recorded and the files collected: the
    stage fails exactly when there is an error and nothing was collected. *)
Lemma stage_result_policy total_records (errors : list string) (collected : list path) :
  let r := stage_result self total_records errors collected in
  (success r = false <-> errors <> [] /\ collected = [])
  /\ (success r = false ->
      exists first_error rest,
        errors = first_error :: rest
        /\ error_message r =
             Some (pretty (List.length errors) +:+ " transform(s) failed: " +:+ first_error))
  /\ (success r = true ->
      exists md, metadata r = Some md /\ md_errors md = List.length errors
                 /\ output_files r = Some collected
                 /\ records_processed r = Some total_records).
Proof.
  unfold stage_result. destruct errors as [|e errors], collected as [|f collected]; cbn.
  - split; [split; [done|by intros [? _]]|]. split; [done|]. intros _. by eexists.
  - split; [split; [done|by intros [? _]]|]. split; [done|]. intros _. by eexists.
  - split; [done|]. split; [|done]. intros _. by eexists _, _.
  - split; [split; [done|by intros [_ ?]]|]. split; [done|]. intros _. by eexists.
Qed.

End ResultPolicy.

(** What [glob("*.jsonl")] collects are entries of the directory itself:
    never a file of a subdirectory. *)
Lemma glob_jsonl_top_level (d : path) (w : world) (collected : list path) :
  (glob_jsonl d w).1 = Return collected ->
  forall p, p ∈ collected ->
            exists c, p = d ++ [c] /\ ends_with ".jsonl" c = true /\ is_Some (w_fs w !! p).
Proof.
  unfold glob_jsonl. destruct (w_fs w !! d) as [[c|]|]; cbn; intros [= <-] p Hp;
    try by apply elem_of_nil in Hp.
  apply list_elem_of_In, filter_In in Hp as [Hin Hsuffix].
  apply list_elem_of_In, elem_of_children in Hin as [Hsome [c ->]].
  exists c. split; [done|]. split; [|done].
  unfold path_name in Hsuffix. by rewrite last_last in Hsuffix.
Qed.

(** * Further properties of the stage *)

(** ** [validate] *)

Section ValidateProperties.

Variable self : Stage.
Variable _validate_output_dir : M unit.

(** X1: [validate] returns only when the canonizer repository, its venv,
    the [can] executable, the transform registry and the vault all exist,
    the output directory has been validated and at least one mapping is
    configured. *)
Theorem X1_validate_returns_only_when_ready w w' :
  validate self _validate_output_dir w = (None, w') ->
  fs_exists (w_fs w) (repo_path (config self)) = true
  /\ fs_exists (w_fs w) (venv_path (config self)) = true
  /\ fs_exists (w_fs w) (venv_path (config self) // "bin" // "can") = true
  /\ fs_exists (w_fs w) (transform_registry (config self)) = true
  /\ fs_exists (w_fs w) (input_dir (config self)) = true
  /\ _validate_output_dir w = (Return tt, w')
  /\ mappings (config self) <> [].
Proof.
  unfold validate.
  destruct (fs_exists (w_fs w) (repo_path (config self))); [|discriminate].
  destruct (fs_exists (w_fs w) (venv_path (config self))); [|discriminate].
  destruct (fs_exists (w_fs w) (venv_path (config self) // "bin" // "can")); [|discriminate].
  destruct (fs_exists (w_fs w) (transform_registry (config self))); [|discriminate].
  destruct (fs_exists (w_fs w) (input_dir (config self))); [|discriminate].
  cbn. destruct (_validate_output_dir w) as [[[]|e] w1]; [|discriminate].
  destruct (mappings (config self)); [discriminate|]. intros [= <-]. by repeat split.
Qed.

(** X2: when one of the five paths is missing, [validate] raises a
    [FileNotFoundError] and leaves the world as it was: the output directory
    is not validated (so not created) and the mappings are not looked at. *)
Theorem X2_validate_missing_path_raises_first w :
  fs_exists (w_fs w) (repo_path (config self)) = false
  \/ fs_exists (w_fs w) (venv_path (config self)) = false
  \/ fs_exists (w_fs w) (venv_path (config self) // "bin" // "can") = false
  \/ fs_exists (w_fs w) (transform_registry (config self)) = false
  \/ fs_exists (w_fs w) (input_dir (config self)) = false ->
  exists msg,
    validate self _validate_output_dir w = (Some (Raised (FileNotFoundError msg)), w).
Proof.
  unfold validate. intros Hmissing.
  destruct (fs_exists (w_fs w) (repo_path (config self))); [|by eexists].
  destruct (fs_exists (w_fs w) (venv_path (config self))); [|by eexists].
  destruct (fs_exists (w_fs w) (venv_path (config self) // "bin" // "can")); [|by eexists].
  destruct (fs_exists (w_fs w) (transform_registry (config self))); [|by eexists].
  destruct (fs_exists (w_fs w) (input_dir (config self))); [|by eexists].
  destruct Hmissing as [?|[?|[?|[?|?]]]]; discriminate.
Qed.

(** X3: the mappings are checked last.  With the five paths in place and no
    mapping configured, [validate] raises the [ValueError] only after the
    output directory has been validated, and leaves the world that this
    validation left. *)
Theorem X3_validate_checks_mappings_last w w' :
  fs_exists (w_fs w) (repo_path (config self)) = true ->
  fs_exists (w_fs w) (venv_path (config self)) = true ->
  fs_exists (w_fs w) (venv_path (config self) // "bin" // "can") = true ->
  fs_exists (w_fs w) (transform_registry (config self)) = true ->
  fs_exists (w_fs w) (input_dir (config self)) = true ->
  _validate_output_dir w = (Return tt, w') ->
  mappings (config self) = [] ->
  validate self _validate_output_dir w
  = (Some (ValueError "No transform mappings configured"), w').
Proof.
  intros H1 H2 H3 H4 H5 Hout Hmaps. unfold validate.
  rewrite H1, H2. cbn. rewrite H3. cbn. rewrite H4, H5. cbn.
  by rewrite Hout, Hmaps.
Qed.

End ValidateProperties.

(** ** One part, one file *)

Section CallProperties.

Context {runtime : Runtime}.
Variable self : Stage.

(** X4: a call of [_transform_gzip_part] that raises has written nothing,
    whatever the reason (unreadable part, failing engine, output file that
    cannot be opened). *)
Theorem X4_failed_part_writes_nothing part_path transform_meta output_file w e w' :
  _transform_gzip_part self part_path transform_meta output_file w = (Raise e, w') ->
  w_fs w' = w_fs w.
Proof.
  unfold _transform_gzip_part. run_monad.
  destruct (w_fs w !! part_path) as [[raw|]|]; try by intros [= <- <-].
  destruct (gunzip raw) as [input_data|]; try by intros [= <- <-].
  destruct (negb (returncode (engine (can_command self transform_meta) input_data) =? 0));
    try by intros [= <- <-].
  unfold append_file. cbn [w_fs w_log w_calls].
  destruct (w_fs w !! output_file) as [[c|]|]; try by intros [= <- <-].
  destruct (w_fs w !! parent output_file) as [[c|]|]; by intros [= <- <-].
Qed.

(** X5: a part at a plain path that is not a regular file that decompresses
    (missing, a directory, bad gzip data) makes [_transform_gzip_part] raise
    before the engine is run: an [OSError] when there is no file to open,
    [BadGzipFile] when the file is not gzip data. *)
Theorem X5_unreadable_part_never_reaches_engine part_path transform_meta output_file w :
  plain part_path ->
  engine_run self transform_meta (w_fs w) part_path = None ->
  exists e w',
    _transform_gzip_part self part_path transform_meta output_file w = (Raise e, w')
    /\ (w_fs w !! part_path = None -> exists code, e = OSError code part_path)
    /\ (w_fs w !! part_path = Some Dir -> e = OSError EISDIR part_path)
    /\ (forall raw, w_fs w !! part_path = Some (File raw) -> e = BadGzipFile)
    /\ w_fs w' = w_fs w
    /\ w_calls w' = w_calls w.
Proof.
  unfold engine_run, _transform_gzip_part. run_monad. intros _ Hrun.
  destruct (w_fs w !! part_path) as [[raw|]|].
  - destruct (gunzip raw); [discriminate|].
    eexists _, _. split; [done|]. by repeat split.
  - eexists _, _. split; [done|]. by repeat split.
  - eexists _, _. split; [done|]. repeat split; try done. by eexists.
Qed.

End CallProperties.

(** ** What the loops return and raise *)

Lemma returns_ret {A} (P : A -> Prop) a : P a -> returns_with P (ret a).
Proof. intros Ha w a' w' [= <- _]. done. Qed.

Lemma returns_raise {A} (P : A -> Prop) e : returns_with P (@raise A e).
Proof. intros w a w' [=]. Qed.

Lemma returns_bind {A B} (R : A -> Prop) (P : B -> Prop) (c : M A) (k : A -> M B) :
  returns_with R c -> (forall a, R a -> returns_with P (k a)) -> returns_with P (bind c k).
Proof.
  intros Hc Hk w b w'. unfold bind. destruct (c w) as [[a|e] w1] eqn:Hcw; [|done].
  apply Hk. by apply (Hc w a w1).
Qed.

Lemma returns_for_each {A B} (P : A -> Prop) (body : B -> A -> M A) l acc :
  (forall x a, P a -> returns_with P (body x a)) -> P acc ->
  returns_with P (for_each body l acc).
Proof.
  intros Hbody. revert acc. induction l as [|x l IH]; intros acc Hacc; cbn.
  - by apply returns_ret.
  - apply (returns_bind P); [by apply Hbody|]. intros a Ha. by apply IH.
Qed.

Lemma raises_ret {A} (Q : exn -> world -> Prop) (a : A) : raises_with Q (ret a).
Proof. intros w e w' [=]. Qed.

Lemma raises_log (Q : exn -> world -> Prop) lv msg : raises_with Q (log lv msg).
Proof. intros w e w' [=]. Qed.

Lemma raises_bind {A B} (Q : exn -> world -> Prop) (c : M A) (k : A -> M B) :
  raises_with Q c -> (forall a, raises_with Q (k a)) -> raises_with Q (bind c k).
Proof.
  intros Hc Hk w e w'. unfold bind. destruct (c w) as [[a|e1] w1] eqn:Hcw.
  - apply Hk.
  - intros [= <- <-]. by apply (Hc w e1 w1).
Qed.

Lemma raises_for_each {A B} (Q : exn -> world -> Prop) (body : B -> A -> M A) l acc :
  (forall x a, x ∈ l -> raises_with Q (body x a)) -> raises_with Q (for_each body l acc).
Proof.
  revert acc. induction l as [|x l IH]; intros acc Hbody; cbn.
  - apply raises_ret.
  - apply raises_bind; [apply Hbody; left|]. intros a. apply IH.
    intros y b Hy. apply Hbody. by right.
Qed.

Lemma never_raises_for_each {A B} (body : B -> A -> M A) l acc :
  (forall x a, never_raises (body x a)) -> never_raises (for_each body l acc).
Proof.
  intros Hbody. revert acc. induction l as [|x l IH]; intros acc w; cbn.
  - by eexists _, _.
  - unfold bind. destruct (Hbody x acc w) as (a & w1 & ->). apply IH.
Qed.

(** A run, from its result. *)
Lemma run_result {A} (c : M A) (w : world) (r : result A) :
  (c w).1 = r -> c w = (r, (c w).2).
Proof. intros <-. apply surjective_pairing. Qed.

(** ** What reads only *)

Lemma same_files_refl w : same_files w w.
Proof. done. Qed.

Lemma same_files_trans w1 w2 w3 : same_files w1 w2 -> same_files w2 w3 -> same_files w1 w3.
Proof. intros [H1 H2] [H3 H4]. split; congruence. Qed.

Lemma read_only_ret {A} (a : A) : read_only (ret a).
Proof. done. Qed.

Lemma read_only_raise {A} e : read_only (@raise A e).
Proof. done. Qed.

Lemma read_only_lift {A} (r : result A) : read_only (lift r).
Proof. done. Qed.

Lemma read_only_log lv msg : read_only (log lv msg).
Proof. done. Qed.

Lemma read_only_path_exists p : read_only (path_exists p).
Proof. done. Qed.

Lemma read_only_is_dir p : read_only (is_dir p).
Proof. done. Qed.

Lemma read_only_read_file p : read_only (read_file p).
Proof. intros w. unfold read_file. by destruct (w_fs w !! p) as [[c|]|]. Qed.

Lemma read_only_iterdir d : read_only (iterdir d).
Proof. intros w. unfold iterdir. by destruct (w_fs w !! d) as [[c|]|]. Qed.

Lemma read_only_glob_jsonl d : read_only (glob_jsonl d).
Proof. intros w. unfold glob_jsonl. by destruct (w_fs w !! d) as [[c|]|]. Qed.

Lemma read_only_bind {A B} (c : M A) (k : A -> M B) :
  read_only c -> (forall a, read_only (k a)) -> read_only (bind c k).
Proof.
  intros Hc Hk w. specialize (Hc w). unfold bind.
  destruct (c w) as [[a|e] w1]; [|done].
  eapply same_files_trans; [exact Hc|apply Hk].
Qed.

Lemma read_only_try_except {A} (c : M A) (h : exn -> M A) :
  read_only c -> (forall e, read_only (h e)) -> read_only (try_except c h).
Proof.
  intros Hc Hh w. specialize (Hc w). unfold try_except.
  destruct (c w) as [[a|e] w1]; [done|].
  eapply same_files_trans; [exact Hc|apply Hh].
Qed.

Lemma read_only_for_each {A B} (body : B -> A -> M A) l acc :
  (forall x a, read_only (body x a)) -> read_only (for_each body l acc).
Proof.
  intros Hbody. revert acc. induction l as [|x l IH]; intros acc; cbn.
  - apply read_only_ret.
  - by apply read_only_bind.
Qed.

Create HintDb read_only.

#[local] Hint Resolve read_only_ret read_only_raise read_only_lift read_only_log
  read_only_path_exists read_only_is_dir read_only_read_file read_only_iterdir
  read_only_glob_jsonl : read_only.

Ltac read_only_step :=
  first [ apply read_only_bind; [|intros ?]
        | apply read_only_try_except; [|intros ?]
        | apply read_only_for_each; intros ? ?
        | match goal with |- read_only (if ?b then _ else _) => destruct b end
        | match goal with |- read_only (match ?x with _ => _ end) => destruct x end
        | solve [auto with read_only] ].

Section LoopProperties.

Context {runtime : Runtime}.
Variable self : Stage.

Lemma read_only_json_load p : read_only (json_load p).
Proof. unfold json_load. repeat read_only_step. Qed.

(** X6: the locator only reads: whatever [_find_manifests] returns or raises,
    it leaves every file and directory as it was and runs no subprocess. *)
Theorem X6_find_manifests_only_reads vault_root source_path :
  read_only (_find_manifests vault_root source_path).
Proof.
  unfold _find_manifests. repeat read_only_step.
Qed.

Lemma transform_gzip_part_nonneg part_path transform_meta output_file :
  returns_with (fun records => 0 <= records)
    (_transform_gzip_part self part_path transform_meta output_file).
Proof.
  unfold _transform_gzip_part.
  apply (returns_bind (fun _ => True)); [done|intros _ _].
  apply (returns_bind (fun _ => True)); [done|intros input_data _].
  apply (returns_bind (fun _ => True)); [done|intros result _].
  destruct (negb (returncode result =? 0)); [apply returns_raise|].
  apply (returns_bind (fun _ => True)); [done|intros _ _].
  apply returns_ret, str_count_nonneg.
Qed.

Lemma transform_part_body_nonneg run_dir transform_meta output_file part total_records :
  0 <= total_records ->
  returns_with (fun total => 0 <= total)
    (transform_part_body self run_dir transform_meta output_file part total_records).
Proof.
  intros Htotal. unfold transform_part_body.
  apply (returns_bind (fun _ => True)); [done|intros rel _].
  apply (returns_bind (fun _ => True)); [done|intros part_path _].
  apply (returns_bind (fun _ => True)); [done|intros ex _].
  destruct (negb ex).
  - apply (returns_bind (fun _ => True)); [done|intros _ _]. by apply returns_ret.
  - apply (returns_bind (fun records => 0 <= records));
      [apply transform_gzip_part_nonneg|intros records Hrecords].
    apply returns_ret. lia.
Qed.

Lemma transform_from_manifest_nonneg
  manifest_path transform_name registry out_dir out_name :
  returns_with (fun records => 0 <= records)
    (_transform_from_manifest self manifest_path transform_name registry out_dir out_name).
Proof.
  unfold _transform_from_manifest.
  apply (returns_bind (fun _ => True)); [done|intros manifest _].
  apply (returns_bind (fun _ => True)); [done|intros parts _].
  destruct (negb (truthy parts)).
  { apply (returns_bind (fun _ => True)); [done|intros _ _]. by apply returns_ret. }
  apply (returns_bind (fun _ => True)); [done|intros parts_count _].
  apply (returns_bind (fun _ => True)); [done|intros totals _].
  apply (returns_bind (fun _ => True)); [done|intros total _].
  apply (returns_bind (fun _ => True)); [done|intros _ _].
  apply (returns_bind (fun _ => True)); [done|intros ex _].
  destruct (negb ex); [apply returns_raise|].
  apply (returns_bind (fun _ => True)); [done|intros account _].
  apply (returns_bind (fun _ => True)); [done|intros source_field _].
  apply (returns_bind (fun _ => True)); [done|intros source _].
  apply (returns_bind (fun _ => True)); [done|intros _ _].
  apply (returns_bind (fun _ => True)); [done|intros ex' _].
  apply (returns_bind (fun _ => True)); [done|intros _ _].
  apply (returns_bind (fun _ => True)); [done|intros sorted_parts _].
  apply returns_for_each; [|done].
  intros part acc Hacc. by apply transform_part_body_nonneg.
Qed.

(** The message that [execute] records for a manifest that failed. *)
Lemma execute_manifest_body_step transform_name output_name manifest_path
  total_records (errors : list string) w :
  exists total' new w',
    execute_manifest_body self transform_name output_name manifest_path
      (total_records, errors) w = (Return (total', errors ++ new), w')
    /\ total_records <= total'
    /\ (new = []
        \/ (total' = total_records
            /\ exists e, new = ["Failed to transform manifest " +:+ str_path manifest_path
                                  +:+ ": " +:+ exn_str e])).
Proof.
  unfold execute_manifest_body, try_except, bind.
  destruct (_transform_from_manifest self manifest_path transform_name
              (transform_registry (config self)) (output_dir (config self)) output_name w)
    as [[records|e] w1] eqn:Hrun.
  - apply transform_from_manifest_nonneg in Hrun.
    eexists _, [], _. rewrite app_nil_r. cbn. split; [reflexivity|]. split; [lia|by left].
  - eexists _, [_], _. cbn. split; [reflexivity|]. split; [lia|]. right. eauto.
Qed.

(** X7: a failing manifest never stops [execute]: the loop over the manifests
    of a mapping always returns, never lowers the number of records, and
    adds to the errors at most one message per manifest, each of them the
    failure of one of these manifests. *)
Theorem X7_failed_manifest_never_stops_the_loop transform_name output_name
  (manifests : list path) total_records (errors : list string) w :
  exists total' new w',
    for_each (execute_manifest_body self transform_name output_name) manifests
      (total_records, errors) w = (Return (total', errors ++ new), w')
    /\ total_records <= total'
    /\ (List.length new <= List.length manifests)%nat
    /\ Forall (fun msg => exists manifest_path e,
                   manifest_path ∈ manifests
                   /\ msg = "Failed to transform manifest " +:+ str_path manifest_path
                              +:+ ": " +:+ exn_str e) new.
Proof.
  revert total_records errors w.
  induction manifests as [|manifest_path manifests IH]; intros total_records errors w.
  - exists total_records, [], w. rewrite app_nil_r. cbn. done.
  - cbn [for_each]. unfold bind.
    destruct (execute_manifest_body_step transform_name output_name manifest_path
                total_records errors w) as (total1 & new1 & w1 & -> & Hle1 & Hnew1).
    destruct (IH total1 (errors ++ new1) w1) as (total2 & new2 & w2 & -> & Hle2 & Hlen & Hall).
    exists total2, (new1 ++ new2), w2. rewrite app_assoc.
    split; [done|]. split; [lia|]. split.
    + rewrite length_app. cbn. destruct Hnew1 as [->|(_ & e & ->)]; cbn; lia.
    + apply Forall_app. split.
      * destruct Hnew1 as [->|(_ & e & ->)]; [done|].
        apply Forall_singleton. exists manifest_path, e. split; [left|done].
      * eapply Forall_impl; [exact Hall|]. intros msg (mp & e & Hin & ->).
        exists mp, e. split; [by right|done].
Qed.

Lemma manifests_loop_never_raises transform_name output_name manifests acc :
  never_raises (for_each (execute_manifest_body self transform_name output_name)
                  manifests acc).
Proof.
  apply never_raises_for_each. intros manifest_path [total_records errors] w.
  destruct (execute_manifest_body_step transform_name output_name manifest_path
              total_records errors w) as (total' & new & w' & -> & _).
  by eexists _, _.
Qed.

Lemma manifests_loop_nonneg transform_name output_name manifests acc :
  0 <= acc.1 ->
  returns_with (fun acc' : Z * list string => 0 <= acc'.1)
    (for_each (execute_manifest_body self transform_name output_name) manifests acc).
Proof.
  apply (returns_for_each (fun acc' : Z * list string => 0 <= acc'.1)).
  intros manifest_path [total_records errors] Hacc w a w' Hrun.
  destruct (execute_manifest_body_step transform_name output_name manifest_path
              total_records errors w) as (total' & new & w1 & Hstep & Hle & _).
  rewrite Hstep in Hrun. injection Hrun as <- _. cbn in *. lia.
Qed.

Lemma mapping_body_nonneg m acc :
  0 <= acc.1 ->
  returns_with (fun acc' : Z * list string => 0 <= acc'.1) (execute_mapping_body self m acc).
Proof.
  intros Hacc. unfold execute_mapping_body.
  apply (returns_bind (fun _ => True)); [done|intros manifests _].
  destruct manifests as [|manifest_path manifests].
  - apply (returns_bind (fun _ => True)); [done|intros _ _]. by apply returns_ret.
  - apply (returns_bind (fun _ => True)); [done|intros _ _].
    by apply manifests_loop_nonneg.
Qed.

(** What [execute] returns is the policy applied to a number of records that
    is not negative and to what the pattern collects in the end. *)
Lemma execute_returns w r w' :
  execute self w = (Return r, w') ->
  exists total_records errors collected,
    0 <= total_records
    /\ (glob_jsonl (output_dir (config self)) w').1 = Return collected
    /\ r = stage_result self total_records errors collected.
Proof.
  unfold execute. unfold bind at 1. cbn [log].
  set (w0 := {| w_fs := w_fs w; w_log := _; w_calls := w_calls w |}).
  unfold bind at 1.
  destruct (for_each (execute_mapping_body self) (mappings (config self)) (0, []) w0)
    as [[[total_records errors]|e] w1] eqn:Hloop; [|done].
  assert (Htotal : 0 <= total_records).
  { apply (returns_for_each (fun acc' : Z * list string => 0 <= acc'.1)) in Hloop;
      [done| |done].
    intros m acc Hacc. by apply mapping_body_nonneg. }
  unfold bind.
  destruct (glob_jsonl (output_dir (config self)) w1) as [[collected|e] w2] eqn:Hglob; [|done].
  intros [= <- <-].
  assert (w2 = w1) as ->.
  { revert Hglob. unfold glob_jsonl.
    destruct (w_fs w1 !! output_dir (config self)) as [[c|]|]; congruence. }
  exists total_records, errors, collected. by rewrite Hglob.
Qed.

(** X8: whenever [execute] returns, every output file it declares is an entry
    of the output directory itself, has a name that ends in [.jsonl] and
    exists in the filesystem that [execute] leaves. *)
Theorem X8_declared_outputs_are_top_level_files w r w' (files : list path) :
  execute self w = (Return r, w') ->
  output_files r = Some files ->
  forall p, p ∈ files ->
            exists c, p = output_dir (config self) ++ [c]
                      /\ ends_with ".jsonl" c = true
                      /\ is_Some (w_fs w' !! p).
Proof.
  intros Hrun Hfiles.
  destruct (execute_returns w r w' Hrun) as (total_records & errors & collected & _ & Hglob & ->).
  assert (files = collected) as ->.
  { revert Hfiles. unfold stage_result.
    destruct errors, collected; cbn; congruence. }
  by apply glob_jsonl_top_level.
Qed.

(** X9: whenever [execute] reports success, the number of records is not
    negative, and the metadata entry [manifests_processed] is that number of
    records, whatever the number of manifests; [mappings_applied] is the
    number of configured mappings, whether they found a manifest or not. *)
Theorem X9_success_metadata_counts_records w r w' :
  execute self w = (Return r, w') ->
  success r = true ->
  exists total_records md,
    records_processed r = Some total_records
    /\ 0 <= total_records
    /\ metadata r = Some md
    /\ md_manifests_processed md = total_records
    /\ md_mappings_applied md = List.length (mappings (config self)).
Proof.
  intros Hrun Hsuccess.
  destruct (execute_returns w r w' Hrun) as (total_records & errors & collected & Htotal & _ & ->).
  revert Hsuccess. unfold stage_result.
  destruct errors, collected; cbn; try done; intros _; by eexists _, _.
Qed.

Lemma never_raises_raises {A} (Q : exn -> world -> Prop) (c : M A) :
  never_raises c -> raises_with Q c.
Proof. intros Hc w e w' Hrun. destruct (Hc w) as (a & w1 & Heq). congruence. Qed.

Lemma find_manifests_raises vault_root source_path :
  raises_with (fun e w' => exists c, e = OSError ENOTDIR (vault_root // source_path)
                                     /\ w_fs w' !! (vault_root // source_path) = Some (File c))
    (_find_manifests vault_root source_path).
Proof.
  intros w e w'. unfold _find_manifests. unfold bind at 1. cbn [path_exists].
  destruct (negb (fs_exists (w_fs w) (vault_root // source_path))) eqn:Hex; [done|].
  unfold bind, iterdir.
  destruct (w_fs w !! (vault_root // source_path)) as [[c|]|] eqn:Hlook.
  - intros [= <- <-]. by exists c.
  - destruct (find_manifests_loop_spec (children (w_fs w) (vault_root // source_path)) [] w)
      as (w1 & -> & _). done.
  - unfold fs_exists in Hex. by rewrite Hlook in Hex.
Qed.

(** X10: the only exception that [execute] lets through is the one of
    listing a source path that is a regular file: the failure of a manifest
    is recorded, not raised. *)
Theorem X10_execute_raises_only_for_a_source_file w e w' :
  execute self w = (Raise e, w') ->
  exists m c,
    m ∈ mappings (config self)
    /\ e = OSError ENOTDIR (input_dir (config self) // source_pattern m)
    /\ w_fs w' !! (input_dir (config self) // source_pattern m) = Some (File c).
Proof.
  revert w e w'.
  change (raises_with (fun e w' => exists m c,
            m ∈ mappings (config self)
            /\ e = OSError ENOTDIR (input_dir (config self) // source_pattern m)
            /\ w_fs w' !! (input_dir (config self) // source_pattern m) = Some (File c))
            (execute self)).
  unfold execute.
  apply raises_bind; [apply raises_log|intros _].
  apply raises_bind.
  - apply raises_for_each. intros m acc Hm. unfold execute_mapping_body.
    apply raises_bind.
    + intros w e w' Hrun. apply find_manifests_raises in Hrun as (c & -> & Hfile).
      by exists m, c.
    + intros [|manifest_path manifests].
      * apply raises_bind; [apply raises_log|intros _; apply raises_ret].
      * apply raises_bind; [apply raises_log|intros _].
        apply never_raises_raises, manifests_loop_never_raises.
  - intros [total_records errors].
    apply raises_bind; [|intros collected; apply raises_ret].
    intros w e w'. unfold glob_jsonl.
    by destruct (w_fs w !! output_dir (config self)) as [[c|]|].
Qed.

End LoopProperties.

(** ** The layout of the output *)

Lemma no_slash_cons c s :
  no_slash (String c s) <-> Ascii.eqb c slash = false /\ no_slash s.
Proof.
  unfold no_slash. cbn [str_count]. pose proof (str_count_nonneg slash s).
  destruct (Ascii.eqb c slash); split.
  - lia.
  - by intros [? ?].
  - intros ?. split; [done|lia].
  - intros [_ ?]. lia.
Qed.

Lemma split_on_no_slash s : no_slash s -> split_on slash s = [s].
Proof.
  induction s as [|c s IH]; [done|].
  intros [Hc Hs]%no_slash_cons. cbn [split_on]. by rewrite Hc, IH.
Qed.

Lemma is_absolute_no_slash s : no_slash s -> is_absolute s = false.
Proof. destruct s as [|c s]; [done|]. by intros [Hc _]%no_slash_cons. Qed.

(** Joining one plain name adds one component. *)
Lemma path_join_name (p : path) (s : string) :
  no_slash s -> s <> "" -> s <> "." -> p // s = p ++ [s].
Proof.
  intros Hs Hne Hdot. unfold path_join, components.
  rewrite is_absolute_no_slash, split_on_no_slash by done.
  cbn [List.filter]. unfold keep_component.
  destruct (String.eqb_spec s ""); [done|].
  destruct (String.eqb_spec s "."); [done|]. done.
Qed.

Lemma no_slash_app s t : no_slash s -> no_slash t -> no_slash (s +:+ t).
Proof. unfold no_slash. rewrite str_count_app. lia. Qed.

Lemma no_slash_replace s : no_slash (str_replace slash underscore s).
Proof.
  induction s as [|c s IH]; [done|]. cbn [str_replace].
  apply no_slash_cons. split; [|done].
  destruct (Ascii.eqb_spec c slash); [done|]. by apply Ascii.eqb_neq.
Qed.

Lemma str_replace_eq_empty s : str_replace slash underscore s = "" -> s = "".
Proof. by destruct s. Qed.

Lemma str_replace_eq_dot s : str_replace slash underscore s = "." -> s = ".".
Proof.
  destruct s as [|c [|c' s]]; try done. cbn.
  destruct (Ascii.eqb_spec c slash); [done|]. congruence.
Qed.

Lemma str_length_app (s t : string) :
  String.length (s +:+ t) = (String.length s + String.length t)%nat.
Proof. induction s as [|c s IH]; [done|]. rewrite str_app_cons. cbn. by rewrite IH. Qed.

Lemma str_app_inv_tail (s1 s2 t : string) : s1 +:+ t = s2 +:+ t -> s1 = s2.
Proof.
  revert s2. induction s1 as [|c1 s1 IH]; intros [|c2 s2] Heq; [done| | |].
  - apply (f_equal String.length) in Heq. rewrite str_app_nil, str_length_app in Heq.
    cbn in Heq. lia.
  - apply (f_equal String.length) in Heq. rewrite str_app_nil, str_length_app in Heq.
    cbn in Heq. lia.
  - rewrite !str_app_cons in Heq. injection Heq as -> Heq. f_equal. by apply IH.
Qed.

Lemma substring_all (t : string) : String.substring 0 (String.length t) t = t.
Proof. induction t as [|c t IH]; [done|]. cbn. by rewrite IH. Qed.

Lemma substring_app (s t : string) :
  String.substring (String.length s) (String.length t) (s +:+ t) = t.
Proof.
  induction s as [|c s IH].
  - rewrite str_app_nil. apply substring_all.
  - rewrite str_app_cons. cbn [String.length String.substring]. exact IH.
Qed.

Lemma ends_with_app (s suf : string) : ends_with suf (s +:+ suf) = true.
Proof.
  unfold ends_with. rewrite str_length_app.
  replace (String.length s + String.length suf - String.length suf)%nat
    with (String.length s) by lia.
  rewrite substring_app, String.eqb_refl, andb_true_r.
  apply Nat.leb_le. lia.
Qed.

Lemma jsonl_name_plain (s : string) :
  no_slash s -> no_slash (s +:+ ".jsonl") /\ s +:+ ".jsonl" <> "" /\ s +:+ ".jsonl" <> ".".
Proof.
  intros Hs. split; [by apply no_slash_app|].
  split; intros Heq; apply (f_equal String.length) in Heq;
    rewrite str_length_app in Heq; cbn in Heq; lia.
Qed.

Lemma output_file_layout (out_dir : path) (mf : Manifest) :
  m_source mf <> "" -> m_source mf <> "." -> no_slash (m_account mf) ->
  output_file_of out_dir mf
  = out_dir ++ [str_replace slash underscore (m_source mf); m_account mf +:+ ".jsonl"].
Proof.
  intros Hsrc Hdot Hacc. unfold output_file_of, account_output_dir.
  destruct (jsonl_name_plain (m_account mf) Hacc) as (H1 & H2 & H3).
  rewrite (path_join_name out_dir); [|apply no_slash_replace|..].
  - rewrite path_join_name by done. by rewrite <- app_assoc.
  - intros Heq. by apply str_replace_eq_empty in Heq.
  - intros Heq. by apply str_replace_eq_dot in Heq.
Qed.

Lemma plain_app (p q : path) : plain (p ++ q) <-> plain p /\ plain q.
Proof. unfold plain. rewrite forallb_app. apply andb_true_iff. Qed.

Lemma str_replace_eq_dotdot s : str_replace slash underscore s = ".." -> s = "..".
Proof.
  destruct s as [|c [|c' [|c'' s]]]; try done. cbn.
  destruct (Ascii.eqb_spec c slash); [done|].
  destruct (Ascii.eqb_spec c' slash); [done|]. congruence.
Qed.

(** X11: the output file of a manifest lies two levels below the output
    directory, at [<output_dir>/<source with underscores>/<account>.jsonl],
    when the source is not empty, not a dot and not two dots, and the
    account has no slash; neither of the two levels is [..], and the name
    of the file ends in [.jsonl]. *)
Theorem X11_output_file_is_two_levels_down (out_dir : path) (mf : Manifest) :
  m_source mf <> "" -> m_source mf <> "." -> m_source mf <> ".." ->
  no_slash (m_account mf) ->
  output_file_of out_dir mf
  = out_dir ++ [str_replace slash underscore (m_source mf); m_account mf +:+ ".jsonl"]
  /\ no_slash (str_replace slash underscore (m_source mf))
  /\ plain [str_replace slash underscore (m_source mf); m_account mf +:+ ".jsonl"]
  /\ (plain out_dir -> plain (output_file_of out_dir mf))
  /\ parent (parent (output_file_of out_dir mf)) = out_dir
  /\ ends_with ".jsonl" (path_name (output_file_of out_dir mf)) = true.
Proof.
  intros Hsrc Hdot Hdots Hacc. rewrite output_file_layout by done.
  assert (Hplain : plain [str_replace slash underscore (m_source mf);
                          m_account mf +:+ ".jsonl"]).
  { unfold plain. cbn [forallb].
    destruct (String.eqb_spec (str_replace slash underscore (m_source mf)) "..") as [Heq|_];
      [by apply str_replace_eq_dotdot in Heq|].
    destruct (String.eqb_spec (m_account mf +:+ ".jsonl") "..") as [Heq|_]; [|done].
    apply (f_equal String.length) in Heq. rewrite str_length_app in Heq. cbn in Heq. lia. }
  split; [done|]. split; [apply no_slash_replace|]. split; [done|]. split; [|split].
  - intros Hout. by apply plain_app.
  - unfold parent. change [?a; ?b] with ([a] ++ [b]).
    by rewrite app_assoc, !removelast_last.
  - unfold path_name. change [?a; ?b] with ([a] ++ [b]).
    rewrite app_assoc, last_last. apply ends_with_app.
Qed.

(** X12: two manifests are written to the same output file exactly when
    they have the same account and their sources are the same once the
    slashes are replaced: [email/gmail] and [email_gmail] share their
    files. *)
Theorem X12_output_files_coincide (out_dir : path) (mf1 mf2 : Manifest) :
  m_source mf1 <> "" -> m_source mf1 <> "." -> no_slash (m_account mf1) ->
  m_source mf2 <> "" -> m_source mf2 <> "." -> no_slash (m_account mf2) ->
  output_file_of out_dir mf1 = output_file_of out_dir mf2
  <-> m_account mf1 = m_account mf2
      /\ str_replace slash underscore (m_source mf1)
         = str_replace slash underscore (m_source mf2).
Proof.
  intros Hs1 Hd1 Ha1 Hs2 Hd2 Ha2. rewrite !output_file_layout by done. split.
  - intros Heq. apply app_inv_head in Heq. injection Heq as Hsrc Hacc.
    split; [|done]. by apply str_app_inv_tail in Hacc.
  - by intros [-> ->].
Qed.

(** ** The order of the parts, on the JSON items *)

Lemma insert_keyed_stable {A} (f : A -> Z) (n : Z) (x : sort_key * A) l :
  well_tagged f x -> Forall (well_tagged f) l ->
  filter (fun y => f y = n) (insert_keyed x l).*2
  = filter (fun y => f y = n) (x :: l).*2.
Proof.
  intros Hx. induction 1 as [|y l Hy Hl IH]; [done|]. cbn [insert_keyed].
  destruct (key_leb x.1 y.1) eqn:Hxy; [done|].
  unfold well_tagged in Hx, Hy. rewrite Hx, Hy in Hxy. cbn in Hxy.
  rewrite !fmap_cons in *. rewrite (filter_cons _ y.2), IH, !filter_cons.
  destruct (decide (f y.2 = n)), (decide (f x.2 = n)); try done. lia.
Qed.

Lemma sort_keyed_stable {A} (f : A -> Z) (n : Z) (l : list (sort_key * A)) :
  Forall (well_tagged f) l ->
  filter (fun y => f y = n) (sort_keyed l).*2 = filter (fun y => f y = n) l.*2.
Proof.
  induction 1 as [|x l Hx Hl IH]; [done|].
  change (sort_keyed (x :: l)) with (insert_keyed x (sort_keyed l)).
  rewrite insert_keyed_stable; [|done|by rewrite sort_keyed_perm].
  rewrite !fmap_cons, !filter_cons, IH. done.
Qed.

Lemma well_tagged_numeric {A} (f : A -> Z) (l : list (sort_key * A)) :
  Forall (well_tagged f) l -> Forall numeric l.
Proof. intros Hl. eapply Forall_impl; [exact Hl|]. intros x Hx. by exists (f x.2). Qed.

Lemma sort_keyed_tagged_sorted {A} (f : A -> Z) (l : list (sort_key * A)) :
  Forall (well_tagged f) l ->
  StronglySorted (fun a b => f a <= f b) (sort_keyed l).*2.
Proof.
  intros Htag.
  assert (Hkey : Forall (well_tagged f) (sort_keyed l)) by (by rewrite sort_keyed_perm).
  apply Sorted_StronglySorted; [intros p q r; lia|].
  pose proof (sort_keyed_sorted l (well_tagged_numeric f l Htag)) as Hs.
  induction Hs as [|x l' Hs IH Hhd]; cbn; [constructor|].
  inversion Hkey as [|? ? Hx Hl]; subst.
  constructor; [by apply IH|].
  destruct Hhd as [|y l' Hxy]; cbn; constructor.
  inversion Hl as [|? ? Hy _]; subst.
  unfold key_le in Hxy. unfold well_tagged in Hx, Hy. rewrite Hx, Hy in Hxy. cbn in Hxy. lia.
Qed.

Lemma seq_keys_has_seq items ns :
  Forall2 has_seq items ns ->
  seq_keys items = Return ((fun x : Z * json => (KNum x.1, x.2)) <$> zip ns items).
Proof.
  induction 1 as [|v n items ns (o & -> & Hseq) _ IH]; [done|].
  cbn [seq_keys py_get]. rewrite Hseq, IH. done.
Qed.

(** X14: [sorted(parts, key=lambda p: p.get("seq", 0))] on items that are
    objects with an integer [seq] or none: an item without [seq] is sorted
    as 0, and the result holds the same items in ascending order of [seq],
    items of equal [seq] in the order of the manifest. *)
Theorem X14_parts_sort_is_stable_and_defaults_to_zero (items : list json) (ns : list Z) :
  Forall2 has_seq items ns ->
  exists sorted : list (Z * json),
    sorted_by_seq (JArr items) = Return sorted.*2
    /\ sorted ≡ₚ zip ns items
    /\ StronglySorted (fun x y => x.1 <= y.1) sorted
    /\ forall n, filter (fun x : Z * json => x.1 = n) sorted
                 = filter (fun x : Z * json => x.1 = n) (zip ns items).
Proof.
  intros Hitems.
  set (tagged := (fun x : Z * json => (KNum x.1, x)) <$> zip ns items).
  assert (Htag : Forall (well_tagged fst) tagged).
  { apply Forall_fmap, Forall_true. done. }
  assert (Hid : tagged.*2 = zip ns items).
  { unfold tagged. rewrite <- list_fmap_compose. apply list_fmap_id. }
  exists (sort_keyed tagged).*2. split; [|split; [|split]].
  - unfold sorted_by_seq. cbn [py_iter]. rewrite (seq_keys_has_seq _ _ Hitems).
    assert (Hkeys : (fun x : Z * json => (KNum x.1, x.2)) <$> zip ns items
                    = prod_map id snd <$> tagged).
    { unfold tagged. by rewrite <- list_fmap_compose. }
    rewrite Hkeys, py_sorted_numeric.
    + rewrite <- sort_keyed_map, <- !list_fmap_compose. f_equal.
    + apply Forall_fmap. eapply Forall_impl; [exact Htag|].
      intros x Hx. exists x.2.1. cbn. apply Hx.
  - by rewrite sort_keyed_perm, Hid.
  - by apply (sort_keyed_tagged_sorted fst).
  - intros n. by rewrite (sort_keyed_stable fst n tagged Htag), Hid.
Qed.

Lemma seq_keys_not_an_object (items : list json) :
  Exists (fun item => forall o, item <> JObj o) items ->
  seq_keys items = Raise AttributeError.
Proof.
  induction items as [|v items IH]; intros Hex; [by inversion Hex|].
  cbn [seq_keys]. destruct v as [| | | | |o]; try done.
  inversion Hex as [? ? Hv|? ? Hrest]; subst; [by destruct (Hv o)|].
  cbn [py_get]. by rewrite IH.
Qed.

(** ** What a failing manifest leaves behind *)

Lemma for_each_app {A B} (body : B -> A -> M A) (l1 l2 : list B) (acc : A) (w : world) :
  for_each body (l1 ++ l2) acc w = bind (for_each body l1 acc) (for_each body l2) w.
Proof.
  revert acc w. induction l1 as [|x l1 IH]; intros acc w; [reflexivity|].
  cbn [app for_each]. unfold bind in IH |- *.
  destruct (body x acc w) as [[a|e] w1]; [|reflexivity]. apply IH.
Qed.

Lemma lookup_append_all_ne (m : gmap path node) (out q : path) (chunks : list string) :
  q <> out -> append_all m out chunks !! q = m !! q.
Proof.
  intros Hq. unfold append_all. destruct chunks; [done|]. by rewrite lookup_insert_ne.
Qed.

Section ManifestFailures.

Context {runtime : Runtime}.
Variable self : Stage.
Variables (manifest_path : path) (transform_name : string).
Variables (registry out_dir : path) (out_name : string).
Variables (text : string) (mf : Manifest).

Local Abbreviation transform_meta := (meta_path registry transform_name).
Local Abbreviation run_dir := (parent manifest_path).
Local Abbreviation out := (output_file_of out_dir mf).
Local Abbreviation run :=
  (_transform_from_manifest self manifest_path transform_name registry out_dir out_name).
Local Abbreviation loop := (for_each (transform_part_body self run_dir transform_meta out)).

(** Up to the sort: the checks pass, the output directory is made and the
    previous output file is deleted. *)
Lemma reach_sort o items w m1 :
  json_loads text = Some (JObj o) ->
  assoc "account" o = Some (JStr (m_account mf)) ->
  assoc "source" o = Some (JStr (m_source mf)) ->
  (assoc "totals" o = None \/ exists t, assoc "totals" o = Some (JObj t)) ->
  assoc "parts" o = Some (JArr items) ->
  items <> [] ->
  w_fs w !! manifest_path = Some (File text) ->
  is_Some (w_fs w !! transform_meta) ->
  mkdirs (account_output_dir out_dir mf) [] (account_output_dir out_dir mf) (w_fs w)
    = Return m1 ->
  m1 !! out <> Some Dir ->
  exists w2, run w = (let* sorted_parts := lift (sorted_by_seq (JArr items)) in
                      loop sorted_parts 0) w2
             /\ w_fs w2 = delete out m1 /\ w_calls w2 = w_calls w.
Proof.
  intros Hjson Hacc Hsrc Htotals Hparts Hne Hfile [x Hmeta] Hmk Hout.
  unfold output_file_of, account_output_dir, meta_path in *.
  unfold _transform_from_manifest. run_monad.
  rewrite Hfile, Hjson. cbn [py_get]. rewrite Hparts.
  destruct items as [|item items]; [done|]. cbn.
  assert (Htot : exists t, default (JObj []) (assoc "totals" o) = JObj t).
  { destruct Htotals as [->|[t ->]]; by eexists. }
  destruct Htot as [t ->]. cbn.
  unfold fs_exists. rewrite Hmeta. cbn.
  rewrite Hacc, Hsrc. cbn.
  unfold mkdir_parents. cbn. rewrite Hmk. cbn.
  match type of Hout with ?l <> _ => destruct l as [[c|]|] eqn:Hlook end; [|done|]; cbn.
  - unfold unlink. cbn. rewrite Hlook. cbn.
    eexists. split; [reflexivity|]. done.
  - eexists. split; [reflexivity|]. cbn. by rewrite delete_id.
Qed.


Lemma transform_part_body_fails v (bad : Part) total_records w raw input_data :
  is_part v bad ->
  w_fs w !! (run_dir // p_path bad) = Some (File raw) ->
  gunzip raw = Some input_data ->
  returncode (engine (can_command self transform_meta) input_data) <> 0 ->
  exists w',
    transform_part_body self run_dir transform_meta out v total_records w
    = (Raise (RuntimeError
                (part_error_msg (run_dir // p_path bad)
                   (engine (can_command self transform_meta) input_data))), w')
    /\ w_fs w' = w_fs w
    /\ w_calls w' = w_calls w ++ [(can_command self transform_meta, input_data)].
Proof.
  intros (o & -> & _ & Hpath) Hfile Hgz Hrc.
  unfold transform_part_body. unfold bind at 1. cbn [lift py_item]. rewrite Hpath.
  unfold bind at 1. cbn [lift py_truediv].
  unfold bind at 1. cbn [path_exists]. unfold fs_exists. rewrite Hfile. cbn [negb].
  unfold bind.
  rewrite (transform_gzip_part_nonzero self _ _ _ w raw input_data Hfile Hgz Hrc).
  eexists. split; [reflexivity|]. done.
Qed.


Lemma loop_all_missing items (l : list Part) total_records w :
  Forall2 is_part items l ->
  Forall (fun p => w_fs w !! (run_dir // p_path p) = None) l ->
  exists w', loop items total_records w = (Return total_records, w') /\ same_files w w'.
Proof.
  intros Hparts. revert w.
  induction Hparts as [|v p items l (o & -> & _ & Hpath) _ IH]; intros w Hmissing.
  - by exists w.
  - inversion Hmissing as [|? ? Hp Hrest]; subst.
    cbn [for_each]. unfold transform_part_body at 1.
    run_monad. cbn [py_item]. rewrite Hpath. cbn [py_truediv].
    unfold fs_exists. rewrite Hp. cbn [negb].
    match goal with |- context [for_each _ items total_records ?w1] =>
      destruct (IH w1 Hrest) as (w' & -> & Hsame) end.
    exists w'. split; [done|]. exact Hsame.
Qed.



End ManifestFailures.

Section DeclaredOutputs.

Context {runtime : Runtime}.
Variable self : Stage.

(** X13: the output file of a manifest is never among the output files that
    [execute] declares, when the manifest's source is neither empty nor a
    dot and its account has no slash: the pattern collects the entries of
    the output directory, and the file is one level further down. *)
Theorem X13_manifest_output_is_never_declared w r w' (files : list path) (mf : Manifest) :
  execute self w = (Return r, w') ->
  output_files r = Some files ->
  m_source mf <> "" -> m_source mf <> "." -> no_slash (m_account mf) ->
  output_file_of (output_dir (config self)) mf ∉ files.
Proof.
  intros Hrun Hfiles Hsrc Hdot Hacc Hin.
  destruct (execute_returns self w r w' Hrun)
    as (total_records & errors & collected & _ & Hglob & ->).
  assert (files = collected) as ->.
  { revert Hfiles. unfold stage_result. destruct errors, collected; cbn; congruence. }
  destruct (glob_jsonl_top_level _ _ _ Hglob _ Hin) as (c & Heq & _).
  rewrite output_file_layout in Heq by done.
  by apply app_inv_head in Heq.
Qed.


End DeclaredOutputs.

(** ** Where the manifest reader writes *)

Lemma keeps_read_only (q : path) {A} (c : M A) : read_only c -> keeps q c.
Proof. intros Hc w. destruct (Hc w) as [-> _]. done. Qed.

Lemma keeps_bind (q : path) {A B} (c : M A) (k : A -> M B) :
  keeps q c -> (forall a, keeps q (k a)) -> keeps q (bind c k).
Proof.
  intros Hc Hk w. specialize (Hc w). unfold bind.
  destruct (c w) as [[a|e] w1]; [|done]. cbn in Hc. by rewrite Hk.
Qed.

Lemma keeps_bind_lift (q : path) {A B} (r : result A) (k : A -> M B) :
  (forall a, r = Return a -> keeps q (k a)) -> keeps q (bind (lift r) k).
Proof.
  intros Hk w. unfold bind, lift. destruct r as [a|e]; [|done]. by apply Hk.
Qed.

Lemma keeps_tame (q out : path) {A} (c : M A) : tame out c -> q <> out -> keeps q c.
Proof. intros [_ Hwr] Hq w. destruct (Hwr w) as [Hother _]. by apply Hother. Qed.

Lemma keeps_mkdir_parents (q p : path) : ~ q `prefix_of` p -> keeps q (mkdir_parents p).
Proof.
  intros Hq w. unfold mkdir_parents.
  destruct (mkdirs p [] p (w_fs w)) as [m1|e] eqn:Hmk; [|done]. cbn.
  destruct (mkdirs_effect _ _ _ _ _ Hmk q) as [->|(_ & _ & k & ->)]; [done|].
  destruct Hq. cbn. exists (drop k p). by rewrite take_drop.
Qed.

Lemma keeps_unlink (q p : path) : q <> p -> keeps q (unlink p).
Proof.
  intros Hq w. unfold unlink. destruct (w_fs w !! p) as [[c|]|]; [|done|done].
  cbn. by rewrite lookup_delete_ne.
Qed.

Lemma is_absolute_app (s t : string) :
  is_absolute s = false -> is_absolute t = false -> is_absolute (s +:+ t) = false.
Proof. destruct s as [|c s]; [by rewrite str_app_nil|]. by rewrite str_app_cons. Qed.

Lemma not_under (out_dir q : path) (rest : list string) :
  ~ out_dir `prefix_of` q -> ~ q `prefix_of` out_dir -> ~ q `prefix_of` out_dir ++ rest.
Proof.
  intros H1 H2 Hq.
  destruct (prefix_weak_total q out_dir (out_dir ++ rest) Hq); [|done|done].
  by apply prefix_app_r.
Qed.

Section WritesOfTheReader.

Context {runtime : Runtime}.
Variable self : Stage.

(** X22: a call of [_transform_from_manifest], whether it returns or raises,
    changes nothing outside the output directory and the way to it, when
    the output directory is a plain path and the manifest names a place
    below it: its account does not start with a slash and has no [..]
    component, and its source is not [..].  The vault, the registry and
    every other path are left as they were. *)
Theorem X22_reader_writes_only_at_the_output_directory
  manifest_path transform_name registry (out_dir : path) out_name w (q : path) :
  plain out_dir ->
  (forall manifest, (json_load manifest_path w).1 = Return manifest ->
                    is_absolute (account_of manifest) = false
                    /\ plain (components (account_of manifest +:+ ".jsonl"))
                    /\ source_of manifest <> "..") ->
  ~ out_dir `prefix_of` q ->
  ~ q `prefix_of` out_dir ->
  w_fs (_transform_from_manifest self manifest_path transform_name registry out_dir
          out_name w).2 !! q
  = w_fs w !! q.
Proof.
  intros _ Hnames Hbelow Habove. unfold _transform_from_manifest. unfold bind at 1.
  pose proof (read_only_json_load manifest_path w) as [Hfs1 _].
  destruct (json_load manifest_path w) as [[manifest|e] w1]; cbn in Hfs1; [|cbn; by rewrite Hfs1].
  destruct (Hnames manifest eq_refl) as (Habs & _ & _). clear Hnames.
  rewrite <- Hfs1. clear Hfs1. revert w1.
  match goal with |- forall w1, w_fs (?c w1).2 !! q = _ => change (keeps q c) end.
  destruct manifest as [| | | | |o];
    try solve [apply keeps_bind_lift; intros ? Hget; discriminate Hget].
  cbn [account_of] in Habs.
  apply keeps_bind_lift. intros parts _.
  destruct (negb (truthy parts)).
  { apply keeps_read_only. repeat read_only_step. }
  apply keeps_bind; [by apply keeps_read_only|intros parts_count].
  apply keeps_bind; [by apply keeps_read_only|intros totals].
  apply keeps_bind; [by apply keeps_read_only|intros total].
  apply keeps_bind; [by apply keeps_read_only|intros _].
  apply keeps_bind; [by apply keeps_read_only|intros ex].
  destruct (negb ex); [by apply keeps_read_only|].
  apply keeps_bind_lift. intros account [= <-].
  apply keeps_bind; [by apply keeps_read_only|intros source_field].
  apply keeps_bind_lift. intros source Hsource.
  assert (Hdir : out_dir // source = out_dir ++ components source).
  { apply path_join_relative, is_absolute_no_slash.
    destruct source_field; try discriminate. injection Hsource as <-.
    apply no_slash_replace. }
  assert (Hfile : exists rest, out_dir // source
                                 // (py_str (default (JStr "unknown") (assoc "account" o))
                                       +:+ ".jsonl") = out_dir ++ rest).
  { rewrite path_join_relative by (by apply is_absolute_app).
    rewrite Hdir, <- app_assoc. by eexists. }
  destruct Hfile as [rest Hfile]. rewrite Hfile, Hdir.
  assert (Hq : q <> out_dir ++ rest).
  { intros ->. apply Hbelow. by apply prefix_app_r. }
  apply keeps_bind; [apply keeps_mkdir_parents; by apply not_under|intros _].
  apply keeps_bind; [by apply keeps_read_only|intros ex'].
  apply keeps_bind.
  { destruct ex'; [|by apply keeps_read_only].
    apply keeps_bind; [by apply keeps_read_only|intros _]. by apply keeps_unlink. }
  intros _. apply keeps_bind; [by apply keeps_read_only|intros sorted_parts].
  apply (keeps_tame q (out_dir ++ rest)); [|done].
  apply tame_for_each. intros part total_records. apply tame_transform_part_body.
Qed.

End WritesOfTheReader.

(** ** The transform of a single file *)

Section FileTransformer.

Variable self : Stage.
Variable date_str : string.
Variable engine_on_files : gmap path node -> list string -> CompletedProcess.
Variable validate_file_is_jsonl : gmap path node -> path -> bool.

Local Abbreviation transform_file :=
  (_transform_file self date_str engine_on_files validate_file_is_jsonl).

(** X19: a call of [_transform_file] that raises has written nothing; when
    the transform metadata is missing it raises [FileNotFoundError] before
    the engine is run. *)
Theorem X19_failed_file_transform_writes_nothing
  input_file transform_name registry out_dir out_name w e w' :
  transform_file input_file transform_name registry out_dir out_name w = (Raise e, w') ->
  w_fs w' = w_fs w
  /\ (fs_exists (w_fs w) (meta_path registry transform_name) = false ->
      e = FileNotFoundError ("Transform metadata not found: "
                               +:+ str_path (meta_path registry transform_name))
      /\ w_calls w' = w_calls w).
Proof.
  unfold _transform_file, meta_path. run_monad. unfold subprocess_run_files. cbn [w_fs].
  destruct (fs_exists (w_fs w) (registry // (transform_name +:+ ".meta.yaml"))); cbn [negb].
  - destruct (negb _); [by intros [= <- <-]|].
    unfold append_file. cbn [w_fs].
    destruct (w_fs w !! _) as [[c|]|]; cbn.
    + by destruct (negb _).
    + by intros [= <- <-].
    + destruct (w_fs w !! _) as [[c|]|]; cbn; [|by destruct (negb _)|];
        by intros [= <- <-].
  - by intros [= <- <-].
Qed.

(** X20: a call of [_transform_file] that returns had exit code 0, appended
    the standard output to the flat file [<output_dir>/<name>-<date>.jsonl]
    and returns its number of newlines; that file is an entry of the output
    directory, so the pattern of [execute] collects it. *)
Theorem X20_file_transform_output_is_collected
  input_file transform_name registry (out_dir : path) out_name w records w' :
  no_slash out_name -> no_slash date_str ->
  w_fs w !! out_dir = Some Dir ->
  transform_file input_file transform_name registry out_dir out_name w = (Return records, w') ->
  let output_file := out_dir ++ [out_name +:+ "-" +:+ date_str +:+ ".jsonl"] in
  let result :=
    engine_on_files (w_fs w)
      (file_command self (registry // (transform_name +:+ ".meta.yaml")) input_file) in
  returncode result = 0
  /\ records = str_count nl (stdout result)
  /\ w_fs w' = <[output_file := File (content_of (w_fs w) output_file +:+ stdout result)]>
                 (w_fs w)
  /\ exists collected,
      (glob_jsonl out_dir w').1 = Return collected /\ output_file ∈ collected.
Proof.
  intros Hname Hdate Hdir Hrun output_file result.
  assert (Hplain : no_slash (out_name +:+ "-" +:+ date_str)).
  { apply no_slash_app; [done|]. by apply no_slash_app. }
  destruct (jsonl_name_plain _ Hplain) as (H1 & H2 & H3).
  rewrite !str_app_assoc in H1, H2, H3.
  assert (Hout : out_dir // (out_name +:+ "-" +:+ date_str +:+ ".jsonl") = output_file)
    by (by apply path_join_name).
  assert (Hparent : parent output_file = out_dir) by apply removelast_last.
  revert Hrun. unfold _transform_file. rewrite Hout.
  run_monad. unfold subprocess_run_files. cbn [w_fs].
  destruct (fs_exists (w_fs w) _); cbn [negb]; [|done].
  fold result. destruct (Z.eqb_spec (returncode result) 0) as [Hrc|Hrc]; cbn [negb]; [|done].
  assert (Hfs : forall c, w_fs w' = <[output_file := File c]> (w_fs w) ->
                exists collected,
                  (glob_jsonl out_dir w').1 = Return collected /\ output_file ∈ collected).
  { intros c Hfs. unfold glob_jsonl. rewrite Hfs.
    rewrite lookup_insert_ne, Hdir.
    - eexists. split; [reflexivity|].
      apply list_elem_of_In, filter_In. split.
      + apply list_elem_of_In, elem_of_children. split; [|by eexists].
        rewrite lookup_insert_eq. by eexists.
      + unfold path_name, output_file. rewrite last_last.
        rewrite <- !str_app_assoc. apply ends_with_app.
    - intros Heq. apply (f_equal List.length) in Heq.
      unfold output_file in Heq. rewrite length_app in Heq. cbn in Heq. lia. }
  unfold append_file, content_of. cbn [w_fs].
  destruct (w_fs w !! output_file) as [[c|]|] eqn:Hlook; cbn.
  - destruct (negb _); intros [= <- <-]; cbn [w_fs];
      (split; [done|]; split; [done|]; split; [done|]; by eapply Hfs).
  - done.
  - rewrite Hparent, Hdir. cbn.
    destruct (negb _); intros [= <- <-]; cbn [w_fs];
      (split; [done|]; split; [done|]; split; [by rewrite str_app_nil|]; by eapply Hfs).
Qed.

End FileTransformer.

(** * The worked example, run *)

#[local] Existing Instance demo_runtime.

Example demo_world_wf : fs_wf (w_fs demo_world) = true.
Proof. vm_compute. reflexivity. Qed.

(** C1: the stage writes its output files into per-source subdirectories
    and collects with the pattern [*.jsonl], which matches the entries of
    the output directory itself.  In the example both mappings succeed and
    write [out/email_gmail/ben.jsonl] and [out/crm_hub/acme.jsonl]; the
    output-file set that [execute] declares is empty. *)
Theorem C1_collected_files_miss_subdirectories :
  let run := execute (demo_stage [email_mapping; crm_mapping]) demo_world in
  run.1 = Return {| stage_name := "canonize";
                    success := true;
                    duration_seconds := 0;
                    records_processed := Some 6;
                    output_files := Some [];
                    error_message := None;
                    metadata := Some {| md_transform_registry := "/registry";
                                        md_mappings_applied := 2;
                                        md_manifests_processed := 6;
                                        md_errors := 0 |} |}
  /\ w_fs run.2 !! ben_output
     = Some (File (line "a0" +:+ line "a1" +:+ line "a1b" +:+ line "a2"))
  /\ w_fs run.2 !! acme_output = Some (File (line "x0" +:+ line "x7"))
  /\ ends_with ".jsonl" (path_name ben_output) = true
  /\ ends_with ".jsonl" (path_name acme_output) = true.
Proof. repeat split; reflexivity. Qed.

(** C2: in the example the email mapping succeeds and writes its output
    file, and the only manifest of the billing mapping fails (its transform
    has no metadata).  [execute] reports [success=False] with no metadata:
    the output file sits in a subdirectory, so nothing was collected. *)
Theorem C2_partial_success_reported_as_failure :
  let run := execute (demo_stage [email_mapping; billing_mapping]) demo_world in
  run.1 = Return {| stage_name := "canonize";
                    success := false;
                    duration_seconds := 0;
                    records_processed := None;
                    output_files := None;
                    error_message :=
                      Some ("1 transform(s) failed: Failed to transform manifest "
                              +:+ str_path (zed_run ++ ["manifest.json"])
                              +:+ ": Transform metadata not found: "
                              +:+ "/registry/billing.meta.yaml");
                    metadata := None |}
  /\ w_fs run.2 !! ben_output
     = Some (File (line "a0" +:+ line "a1" +:+ line "a1b" +:+ line "a2")).
Proof. repeat split; reflexivity. Qed.

(** ** The part transformer on the example *)

Lemma C5_witness :
  let broken := ben_run ++ ["broken.jsonl.gz"] in
  let result := engine (can_command (demo_stage []) email_meta) (line "!") in
  exists w' shown,
    _transform_gzip_part (demo_stage []) broken email_meta ben_output demo_world =
      (Raise (RuntimeError
                ("Canonizer failed on " +:+ path_name broken +:+ " with exit code "
                   +:+ pretty (returncode result) +:+ shown)), w')
    /\ (stderr result = "" -> shown = "")
    /\ (stderr result <> "" ->
        exists head rest,
          shown = ": " +:+ head /\ stderr result = head +:+ rest
          /\ String.length head = Nat.min 500 (String.length (stderr result)))
    /\ w_fs w' = w_fs demo_world
    /\ w_calls w' = w_calls demo_world
                      ++ [(can_command (demo_stage []) email_meta, line "!")].
Proof.
  intros broken result.
  apply (C5_nonzero_exit_is_hard_failure (demo_stage []) broken email_meta ben_output
           demo_world (line "!") (line "!")).
  - reflexivity.
  - reflexivity.
  - vm_compute. discriminate.
Defined.

Lemma C6_witness :
  let part_path := ben_run ++ ["part-001.jsonl.gz"] in
  let output_file := ["out"; "ben.jsonl"] in
  let w' := (_transform_gzip_part (demo_stage []) part_path email_meta output_file
               demo_world).2 in
  exists raw input_data,
    w_fs demo_world !! part_path = Some (File raw)
    /\ gunzip raw = Some input_data
    /\ let result := engine (can_command (demo_stage []) email_meta) input_data in
       returncode result = 0
       /\ w_fs w' =
            <[output_file := File (content_of (w_fs demo_world) output_file +:+ stdout result)]>
              (w_fs demo_world)
       /\ 2 = str_count nl (stdout result)
       /\ (stdout result = "" -> 2 = 0)
       /\ (forall out, str_count nl (out +:+ String nl "") = str_count nl out + 1).
Proof.
  intros part_path output_file w'.
  apply (C6_success_appends_and_counts (demo_stage []) part_path email_meta output_file
           demo_world 2 w').
  reflexivity.
Defined.

(** ** The manifest reader on the example *)

Lemma C9_witness :
  _transform_from_manifest (demo_stage []) (ben_run ++ ["empty.json"]) "email"
    ["registry"] ["out"] "canonical" demo_world =
    (Return 0,
     {| w_fs := w_fs demo_world;
        w_log := w_log demo_world
                   ++ [(WARNING, "No parts found in manifest: "
                                   +:+ str_path (ben_run ++ ["empty.json"]))];
        w_calls := w_calls demo_world |}).
Proof.
  apply (C9_no_parts_returns_zero (demo_stage []) (ben_run ++ ["empty.json"]) "email"
           ["registry"] ["out"] "canonical" demo_world "manifest without parts"
           [("account", JStr "ben"); ("source", JStr "email/gmail");
            ("totals", JObj [("records", JInt 0)]); ("parts", JArr [])]).
  - reflexivity.
  - reflexivity.
  - right. reflexivity.
Defined.

Lemma C10_witness :
  exists e w',
    _transform_from_manifest (demo_stage []) (zed_run ++ ["manifest.json"]) "billing"
      ["registry"] ["out"] "canonical" demo_world = (Raise e, w')
    /\ w_fs w' = w_fs demo_world
    /\ w_calls w' = w_calls demo_world
    /\ (assoc "totals"
          [("account", JStr "zed"); ("source", JStr "billing/stripe");
           ("totals", JObj [("records", JInt 0)]);
           ("parts", JArr [part_doc 0 "part-000.jsonl.gz"])] = None
        \/ (exists t,
              assoc "totals"
                [("account", JStr "zed"); ("source", JStr "billing/stripe");
                 ("totals", JObj [("records", JInt 0)]);
                 ("parts", JArr [part_doc 0 "part-000.jsonl.gz"])] = Some (JObj t)) ->
        e = FileNotFoundError
              ("Transform metadata not found: "
                 +:+ str_path (["registry"] // ("billing" +:+ ".meta.yaml")))).
Proof.
  apply (C10_missing_metadata_leaves_filesystem (demo_stage []) (zed_run ++ ["manifest.json"])
           "billing" ["registry"] ["out"] "canonical" demo_world "manifest of zed"
           _ (part_doc 0 "part-000.jsonl.gz") []).
  - reflexivity.
  - reflexivity.
  - reflexivity.
  - reflexivity.
Defined.

(** ** The rebuild on the example *)

Ltac conforms_by_computation :=
  eexists _, _; split; [reflexivity|];
  split; [reflexivity|]; split; [reflexivity|];
  split; [right; eexists; reflexivity|];
  split; [reflexivity|];
  repeat constructor; eexists; repeat split; reflexivity.

Ltac part_on_disk :=
  split; [vm_compute; discriminate|right; eexists; split; reflexivity].

Ltac part_missing :=
  split; [vm_compute; discriminate|left; reflexivity].



(** What the two calls above return and write: the three parts of ben in
    the order 0, 1, 2, and the two parts of acme that are on disk. *)
Example ben_rebuild :
  let run := _transform_from_manifest (demo_stage []) (ben_run ++ ["manifest.json"]) "email"
               ["registry"] ["out"] "canonical" demo_world in
  run.1 = Return 4
  /\ w_fs run.2 !! ben_output
     = Some (File (line "a0" +:+ line "a1" +:+ line "a1b" +:+ line "a2"))
  /\ w_calls run.2 = [ (can_command (demo_stage []) email_meta, line "a0");
                       (can_command (demo_stage []) email_meta, line "a1" +:+ line "a1b");
                       (can_command (demo_stage []) email_meta, line "a2") ].
Proof. repeat split; reflexivity. Qed.

Example acme_rebuild :
  let run := _transform_from_manifest (demo_stage []) (acme_run ++ ["manifest.json"]) "crm"
               ["registry"] ["out"] "canonical" demo_world in
  run.1 = Return 2
  /\ w_fs run.2 !! acme_output = Some (File (line "x0" +:+ line "x7"))
  /\ (WARNING, "Part file not found: " +:+ str_path (acme_run ++ ["part-003.jsonl.gz"]))
       ∈ w_log run.2.
Proof.
  split; [reflexivity|]. split; [reflexivity|].
  apply list_elem_of_In. vm_compute. tauto.
Qed.

Lemma C3_witness :
  let manifest_path := ben_run ++ ["manifest.json"] in
  let run := _transform_from_manifest (demo_stage []) manifest_path "email" ["registry"]
               ["out"] "canonical" in
  let out := output_file_of ["out"] ben_manifest in
  (forall w0,
      (forall q, q <> out -> w_fs w0 !! q = w_fs demo_world !! q) ->
      w_fs w0 !! out <> Some Dir ->
      (run w0).1 = (run demo_world).1 /\ w_fs (run w0).2 = w_fs (run demo_world).2)
  /\ (run (run demo_world).2).1 = (run demo_world).1
  /\ w_fs (run (run demo_world).2).2 = w_fs (run demo_world).2.
Proof.
  intros manifest_path run out. subst run out.
  apply (C3_rebuild_forgets_previous_output (demo_stage []) manifest_path "email"
           ["registry"] ["out"] "canonical" "manifest of ben" ben_manifest demo_world
           (manifest_doc "ben" "email/gmail"
              [part_doc 2 "part-002.jsonl.gz"; part_doc 0 "part-000.jsonl.gz";
               part_doc 1 "part-001.jsonl.gz"]) (with_output_dir "email_gmail")).
  - reflexivity.
  - conforms_by_computation.
  - discriminate.
  - reflexivity.
  - eexists. reflexivity.
  - reflexivity.
  - vm_compute. discriminate.
  - vm_compute. discriminate.
  - vm_compute. discriminate.
  - intros [rest Hrest]. vm_compute in Hrest. discriminate.
Defined.

(** C3 as stated fails for a manifest whose [parts] list is empty: the call
    returns 0 before the delete, so the output file of the (source, account)
    pair keeps whatever it held. *)
Lemma C3_counterexample :
  let run := _transform_from_manifest (demo_stage []) (ben_run ++ ["empty.json"]) "email"
               ["registry"] ["out"] "canonical" in
  output_file_of ["out"] {| m_account := "ben"; m_source := "email/gmail"; m_parts := [] |}
    = ben_output
  /\ (run (stale_world "old")).1 = Return 0
  /\ w_fs (run (stale_world "old")).2 !! ben_output = Some (File "old")
  /\ (run (stale_world "older")).1 = Return 0
  /\ w_fs (run (stale_world "older")).2 !! ben_output = Some (File "older").
Proof. repeat split; reflexivity. Qed.


(** The locator on the example: one manifest for the one account. *)
Example find_ben :
  (_find_manifests ["vault"] "email/gmail" demo_world).1
  = Return [ben_run ++ ["manifest.json"]].
Proof. reflexivity. Qed.

(** ** The other methods on the example *)

Lemma X1_witness :
  let self := demo_stage [email_mapping] in
  fs_exists (w_fs ready_world) (repo_path (config self)) = true
  /\ fs_exists (w_fs ready_world) (venv_path (config self)) = true
  /\ fs_exists (w_fs ready_world) (venv_path (config self) // "bin" // "can") = true
  /\ fs_exists (w_fs ready_world) (transform_registry (config self)) = true
  /\ fs_exists (w_fs ready_world) (input_dir (config self)) = true
  /\ ret tt ready_world = (Return tt, ready_world)
  /\ mappings (config self) <> [].
Proof.
  intros self.
  apply (X1_validate_returns_only_when_ready self (ret tt) ready_world ready_world).
  reflexivity.
Defined.

Lemma X2_witness :
  exists msg,
    validate (demo_stage [email_mapping]) (ret tt) demo_world
    = (Some (Raised (FileNotFoundError msg)), demo_world).
Proof.
  apply (X2_validate_missing_path_raises_first (demo_stage [email_mapping]) (ret tt)
           demo_world).
  left. reflexivity.
Defined.

Lemma X3_witness :
  validate (demo_stage []) (ret tt) ready_world
  = (Some (ValueError "No transform mappings configured"), ready_world).
Proof.
  apply (X3_validate_checks_mappings_last (demo_stage []) (ret tt) ready_world ready_world);
    reflexivity.
Defined.

Lemma X4_witness :
  let broken := ben_run ++ ["broken.jsonl.gz"] in
  w_fs (_transform_gzip_part (demo_stage []) broken email_meta ben_output demo_world).2
  = w_fs demo_world.
Proof.
  intros broken.
  apply (X4_failed_part_writes_nothing (demo_stage []) broken email_meta ben_output
           demo_world
           (RuntimeError (part_error_msg broken
                            (engine (can_command (demo_stage []) email_meta) (line "!"))))).
  reflexivity.
Defined.

Lemma X5_witness :
  let missing := acme_run ++ ["part-003.jsonl.gz"] in
  exists e w',
    _transform_gzip_part (demo_stage []) missing email_meta acme_output demo_world
    = (Raise e, w')
    /\ (w_fs demo_world !! missing = None -> exists code, e = OSError code missing)
    /\ (w_fs demo_world !! missing = Some Dir -> e = OSError EISDIR missing)
    /\ (forall raw, w_fs demo_world !! missing = Some (File raw) -> e = BadGzipFile)
    /\ w_fs w' = w_fs demo_world
    /\ w_calls w' = w_calls demo_world.
Proof.
  intros missing.
  apply (X5_unreadable_part_never_reaches_engine (demo_stage []) missing email_meta
           acme_output demo_world).
  - reflexivity.
  - reflexivity.
Defined.

(** ** The orchestrator on the example *)

Lemma X8_witness :
  exists c,
    legacy_output = output_dir (config (demo_stage [email_mapping])) ++ [c]
    /\ ends_with ".jsonl" c = true
    /\ is_Some (w_fs (execute (demo_stage [email_mapping]) legacy_world).2 !! legacy_output).
Proof.
  apply (X8_declared_outputs_are_top_level_files (demo_stage [email_mapping]) legacy_world
           {| stage_name := "canonize";
              success := true;
              duration_seconds := 0;
              records_processed := Some 4;
              output_files := Some [legacy_output];
              error_message := None;
              metadata := Some {| md_transform_registry := "/registry";
                                  md_mappings_applied := 1;
                                  md_manifests_processed := 4;
                                  md_errors := 0 |} |}
           (execute (demo_stage [email_mapping]) legacy_world).2 [legacy_output]).
  - apply run_result; reflexivity.
  - reflexivity.
  - apply list_elem_of_In. left. reflexivity.
Defined.

Lemma X9_witness :
  exists total_records md,
    records_processed
      {| stage_name := "canonize";
         success := true;
         duration_seconds := 0;
         records_processed := Some 6;
         output_files := Some [];
         error_message := None;
         metadata := Some {| md_transform_registry := "/registry";
                             md_mappings_applied := 2;
                             md_manifests_processed := 6;
                             md_errors := 0 |} |} = Some total_records
    /\ 0 <= total_records
    /\ metadata
         {| stage_name := "canonize";
            success := true;
            duration_seconds := 0;
            records_processed := Some 6;
            output_files := Some [];
            error_message := None;
            metadata := Some {| md_transform_registry := "/registry";
                                md_mappings_applied := 2;
                                md_manifests_processed := 6;
                                md_errors := 0 |} |} = Some md
    /\ md_manifests_processed md = total_records
    /\ md_mappings_applied md
       = List.length (mappings (config (demo_stage [email_mapping; crm_mapping]))).
Proof.
  apply (X9_success_metadata_counts_records (demo_stage [email_mapping; crm_mapping])
           demo_world _
           (execute (demo_stage [email_mapping; crm_mapping]) demo_world).2).
  - apply run_result; reflexivity.
  - reflexivity.
Defined.

Lemma X10_witness :
  exists m c,
    m ∈ mappings (config (demo_stage [email_mapping; notes_mapping]))
    /\ OSError ENOTDIR ["vault"; "notes.txt"]
       = OSError ENOTDIR
           (input_dir (config (demo_stage [email_mapping; notes_mapping]))
              // source_pattern m)
    /\ w_fs (execute (demo_stage [email_mapping; notes_mapping]) demo_world).2
         !! (input_dir (config (demo_stage [email_mapping; notes_mapping]))
               // source_pattern m) = Some (File c).
Proof.
  apply (X10_execute_raises_only_for_a_source_file
           (demo_stage [email_mapping; notes_mapping]) demo_world).
  apply run_result; reflexivity.
Defined.

Lemma X13_witness :
  output_file_of (output_dir (config (demo_stage [email_mapping]))) ben_manifest
    ∉ [legacy_output].
Proof.
  apply (X13_manifest_output_is_never_declared (demo_stage [email_mapping]) legacy_world
           {| stage_name := "canonize";
              success := true;
              duration_seconds := 0;
              records_processed := Some 4;
              output_files := Some [legacy_output];
              error_message := None;
              metadata := Some {| md_transform_registry := "/registry";
                                  md_mappings_applied := 1;
                                  md_manifests_processed := 4;
                                  md_errors := 0 |} |}
           (execute (demo_stage [email_mapping]) legacy_world).2 [legacy_output]
           ben_manifest).
  - apply run_result; reflexivity.
  - reflexivity.
  - discriminate.
  - discriminate.
  - reflexivity.
Defined.


(** ** The layout on the example *)

Lemma X11_witness :
  output_file_of ["out"] ben_manifest
  = ["out"] ++ [str_replace slash underscore (m_source ben_manifest);
                m_account ben_manifest +:+ ".jsonl"]
  /\ no_slash (str_replace slash underscore (m_source ben_manifest))
  /\ plain [str_replace slash underscore (m_source ben_manifest);
            m_account ben_manifest +:+ ".jsonl"]
  /\ (plain ["out"] -> plain (output_file_of ["out"] ben_manifest))
  /\ parent (parent (output_file_of ["out"] ben_manifest)) = ["out"]
  /\ ends_with ".jsonl" (path_name (output_file_of ["out"] ben_manifest)) = true.
Proof.
  apply (X11_output_file_is_two_levels_down ["out"] ben_manifest).
  - discriminate.
  - discriminate.
  - discriminate.
  - reflexivity.
Defined.

Lemma X12_witness :
  output_file_of ["out"] ben_manifest = output_file_of ["out"] underscore_manifest
  <-> m_account ben_manifest = m_account underscore_manifest
      /\ str_replace slash underscore (m_source ben_manifest)
         = str_replace slash underscore (m_source underscore_manifest).
Proof.
  apply (X12_output_files_coincide ["out"] ben_manifest underscore_manifest);
    first [discriminate | reflexivity].
Defined.

(** ** The order of the parts on the example *)

Lemma X14_witness :
  let items := [ part_doc 1 "b"; JObj [("path", JStr "a")]; part_doc 0 "z" ] in
  exists sorted : list (Z * json),
    sorted_by_seq (JArr items) = Return sorted.*2
    /\ sorted ≡ₚ zip [1; 0; 0] items
    /\ StronglySorted (fun x y => x.1 <= y.1) sorted
    /\ forall n, filter (fun x : Z * json => x.1 = n) sorted
                 = filter (fun x : Z * json => x.1 = n) (zip [1; 0; 0] items).
Proof.
  intros items.
  apply (X14_parts_sort_is_stable_and_defaults_to_zero items [1; 0; 0]).
  repeat constructor; eexists; split; reflexivity.
Defined.

(** ** Failing manifests on the example *)





(** ** The transform of a single file on the example *)

Lemma X19_witness :
  let run := _transform_file (demo_stage []) "20240501" demo_file_engine demo_jsonl_check
               ["vault"; "notes.txt"] "billing" ["registry"] ["out"] "canonical" in
  w_fs (run demo_world).2 = w_fs demo_world
  /\ (fs_exists (w_fs demo_world) (meta_path ["registry"] "billing") = false ->
      FileNotFoundError ("Transform metadata not found: " +:+ "/registry/billing.meta.yaml")
      = FileNotFoundError ("Transform metadata not found: "
                             +:+ str_path (meta_path ["registry"] "billing"))
      /\ w_calls (run demo_world).2 = w_calls demo_world).
Proof.
  intros run. subst run.
  apply (X19_failed_file_transform_writes_nothing (demo_stage []) "20240501"
           demo_file_engine demo_jsonl_check ["vault"; "notes.txt"] "billing"
           ["registry"] ["out"] "canonical" demo_world).
  apply run_result. reflexivity.
Defined.

Lemma X20_witness :
  let run := _transform_file (demo_stage []) "20240501" demo_file_engine demo_jsonl_check
               ["vault"; "notes.txt"] "email" ["registry"] ["out"] "canonical" in
  let output_file := ["out"] ++ ["canonical" +:+ "-" +:+ "20240501" +:+ ".jsonl"] in
  let result :=
    demo_file_engine (w_fs demo_world)
      (file_command (demo_stage []) (["registry"] // ("email" +:+ ".meta.yaml"))
         ["vault"; "notes.txt"]) in
  returncode result = 0
  /\ 2 = str_count nl (stdout result)
  /\ w_fs (run demo_world).2
     = <[output_file := File (content_of (w_fs demo_world) output_file +:+ stdout result)]>
         (w_fs demo_world)
  /\ exists collected,
      (glob_jsonl ["out"] (run demo_world).2).1 = Return collected
      /\ output_file ∈ collected.
Proof.
  intros run. subst run.
  apply (X20_file_transform_output_is_collected (demo_stage []) "20240501"
           demo_file_engine demo_jsonl_check ["vault"; "notes.txt"] "email"
           ["registry"] ["out"] "canonical" demo_world 2).
  - reflexivity.
  - reflexivity.
  - reflexivity.
  - apply run_result. reflexivity.
Defined.

(** ** The writes of the manifest reader on the example *)

Lemma X22_witness :
  let manifest_path := ben_run ++ ["manifest.json"] in
  let part_path := ben_run ++ ["part-000.jsonl.gz"] in
  w_fs (_transform_from_manifest (demo_stage []) manifest_path "email" ["registry"] ["out"]
          "canonical" demo_world).2 !! part_path
  = w_fs demo_world !! part_path.
Proof.
  intros manifest_path part_path.
  apply (X22_reader_writes_only_at_the_output_directory (demo_stage []) manifest_path
           "email" ["registry"] ["out"] "canonical" demo_world part_path).
  - reflexivity.
  - intros manifest Hload. vm_compute in Hload. injection Hload as <-.
    split; [reflexivity|]. split; [reflexivity|discriminate].
  - intros [k Hk]. discriminate Hk.
  - intros [k Hk]. discriminate Hk.
Defined.
